(** * revshell: the SSL transport (ssl.cc)

    A shallow embedding of [ssl.cc]: the identity loader
    [ssl_load_cert_bufs], and the methods [init], [send], [recv] and
    [close] of the class [ssl_transport], with the properties of the
    transport proved about them.

    The C++ methods run against collaborators that are declared outside
    [ssl.cc]: the OpenSSL library, the TCP stream [tcp_stream], the
    message buffer [message] and the constants of [core.h] and [cert.h].
    What the library, the network and the constants answer is left open
    (they are type classes), so that every theorem holds for every
    behaviour of theirs; the message buffer and the stream object are
    modelled from the specification. Small concrete instances are given
    at the end of the definitions and are used to run the code on
    examples. *)

From Stdlib Require Import ZArith List Bool Lia.
From Stdlib Require String.
Import String.StringSyntax.
From Stdlib.Strings Require Import Byte.
Import ListNotations.
Abbreviation string := String.string.
Open Scope string_scope.
Open Scope list_scope.
Open Scope Z_scope.

Set Implicit Arguments.

(** ** Memory buffers *)

Definition buffer := list byte.

(** The bytes of the C string that starts at [buf]: everything before the
    first NUL, which is what [strlen] measures. *)
Fixpoint c_str (buf : buffer) : buffer :=
  match buf with
  | [] => []
  | b :: rest => if Byte.eqb b x00 then [] else b :: c_str rest
  end.

(** [overwrite src dst]: the buffer [dst] after [src] has been copied to
    its start, as a read of [length src] bytes into [dst] leaves it. *)
Definition overwrite (src dst : buffer) : buffer :=
  src ++ skipn (length src) dst.

(** [resize_buf n buf]: [buf] cut or zero-filled to [n] bytes, as
    [std::vector::resize] does. *)
Definition resize_buf (n : nat) (buf : buffer) : buffer :=
  firstn n buf ++ repeat x00 (n - length buf).

(** [ptr_add buf off] is the memory seen from the pointer [buf + off]; no
    pointer exists before the start of the buffer or past its end. *)
Definition ptr_add (buf : buffer) (off : Z) : option buffer :=
  if (off <? 0) || (Z.of_nat (length buf) <? off) then None
  else Some (skipn (Z.to_nat off) buf).

(** ** The declarations of core.h and cert.h

    [ssl.cc] includes [core.h] and [cert.h] and uses from them the
    transport type tags, the receive result codes, the message layout and
    the embedded identity buffers. Their values are not given in [ssl.cc]
    and are parameters of the development. *)

Class CoreDecls := {
  TPT_CLIENT : Z;
  TPT_SERVER : Z;
  TPT_CLOSE : Z;
  TPT_EMPTY : Z;
  (** [message::header_len], the fixed size of the header *)
  header_len : nat;
  (** how [message::body_len()] reads the body length off the header *)
  decode_body_len : buffer -> nat;
  (** the PEM buffers produced by bin2cc.py and their recorded lengths *)
  _crtbuf : buffer;
  _crtbuf_len : Z;
  _keybuf : buffer;
  _keybuf_len : Z
}.

(** ** The message buffer *)

(** Modelled from the spec: the class [message] of core.h, which
    [ssl.cc] only uses. A message is a fixed-size header followed by a
    body; [data()] points at the header, [body()] just behind it;
    [body_len()] is derived from the header and [resize(n)] gives the body
    region [n] bytes. *)
Record message := mkMessage {
  header : buffer;
  body : buffer
}.

Definition data (msg : message) : buffer := header msg ++ body msg.

Definition data_len (msg : message) : Z := Z.of_nat (length (data msg)).

Definition body_len `{CoreDecls} (msg : message) : nat :=
  decode_body_len (header msg).

Definition resize (n : nat) (msg : message) : message :=
  {| header := header msg; body := resize_buf n (body msg) |}.

(** The two places [recv] reads into. *)
Inductive region := AtData | AtBody.

Definition store (r : region) (bytes : buffer) (msg : message) : message :=
  match r with
  | AtData => {| header := overwrite bytes (header msg); body := body msg |}
  | AtBody => {| header := header msg; body := overwrite bytes (body msg) |}
  end.

Definition wf_message `{CoreDecls} (msg : message) : Prop :=
  length (header msg) = header_len.

(** ** The encrypted session *)

(** What the peer and the network hold for the next [SSL_read]: the
    payload of a record (never empty), the end of the stream, or a failed
    read ([SSL_read] returns [-p]; on the non-blocking socket this is also
    the answer when nothing has arrived). *)
Inductive rx_item :=
| RxRecord (b : byte) (bs : buffer)
| RxClosed
| RxError (p : positive).

(** What one [SSL_write] call meets: room for at most [cap] bytes, no
    progress, or a failure reported as [-p]. A call that fails may have
    put bytes on the wire before it failed: [sent] of them (at most those
    it was asked to write) have reached the peer all the same. *)
Inductive tx_item :=
| TxAccept (cap : positive)
| TxZero
| TxError (p : positive) (sent : nat).

Record SSL := mkSSL {
  ssl_fd : option Z;
  ssl_rx : list rx_item;
  ssl_tx : nat -> tx_item;
  ssl_tx_calls : nat;
  ssl_sent : buffer
}.

Definition set_rx (rx : list rx_item) (s : SSL) : SSL :=
  {| ssl_fd := ssl_fd s; ssl_rx := rx; ssl_tx := ssl_tx s;
     ssl_tx_calls := ssl_tx_calls s; ssl_sent := ssl_sent s |}.

Definition push_rx (left : buffer) (rest : list rx_item) : list rx_item :=
  match left with
  | [] => rest
  | b :: bs => RxRecord b bs :: rest
  end.

(** [SSL_read(ssl, buf, num)]: the result and the bytes put into [buf].
    At most [num] bytes of the current record are handed over; what is
    left of the record waits for the next call. *)
Definition SSL_read (s : SSL) (num : Z) : Z * buffer * SSL :=
  match ssl_rx s with
  | [] => (-1, [], s)
  | RxClosed :: _ => (0, [], s)
  | RxError p :: rest => (Z.neg p, [], set_rx rest s)
  | RxRecord b bs :: rest =>
      if num <=? 0 then (num, [], s)
      else
        let got := firstn (Z.to_nat num) (b :: bs) in
        let left := skipn (Z.to_nat num) (b :: bs) in
        (Z.of_nat (length got), got, set_rx (push_rx left rest) s)
  end.

Definition wrote (bytes : buffer) (s : SSL) : SSL :=
  {| ssl_fd := ssl_fd s; ssl_rx := ssl_rx s; ssl_tx := ssl_tx s;
     ssl_tx_calls := S (ssl_tx_calls s); ssl_sent := ssl_sent s ++ bytes |}.

(** [SSL_write(ssl, buf, num)]: the result; the bytes accepted go to the
    peer in order. *)
Definition SSL_write (s : SSL) (buf : buffer) (num : Z) : Z * SSL :=
  match ssl_tx s (ssl_tx_calls s) with
  | TxAccept cap =>
      let n := Z.min num (Z.pos cap) in
      (n, wrote (firstn (Z.to_nat n) buf) s)
  | TxZero => (0, wrote [] s)
  | TxError p sent =>
      (Z.neg p, wrote (firstn (Nat.min sent (Z.to_nat num)) buf) s)
  end.

Definition SSL_set_fd (s : SSL) (sock : Z) : SSL :=
  {| ssl_fd := Some sock; ssl_rx := ssl_rx s; ssl_tx := ssl_tx s;
     ssl_tx_calls := ssl_tx_calls s; ssl_sent := ssl_sent s |}.

(** ** The OpenSSL library and the TCP stream *)

Inductive SSL_METHOD := TLSv1_client_method | TLSv1_server_method.

(** A read-only memory BIO is the bytes it will hand out. *)
Definition BIO := buffer.

(** [BIO_new_mem_buf(buf, len)]: with a negative [len] the buffer is taken
    to be NUL-terminated and its length is found with [strlen]. *)
Definition BIO_new_mem_buf (buf : buffer) (len : Z) : BIO :=
  if len <? 0 then c_str buf else firstn (Z.to_nat len) buf.

(** The library calls whose results [ssl.cc] branches on. A pointer
    result is an [option] ([None] is NULL), an [int] result is a [Z]. *)
Class OpenSSL := {
  SSL_CTX : Type;
  X509 : Type;
  RSA : Type;
  SSL_CTX_new : SSL_METHOD -> option SSL_CTX;
  PEM_read_bio_X509 : BIO -> option X509;
  PEM_read_bio_RSAPrivateKey : BIO -> option RSA;
  SSL_CTX_use_certificate : SSL_CTX -> option X509 -> Z * SSL_CTX;
  SSL_CTX_use_RSAPrivateKey : SSL_CTX -> option RSA -> Z * SSL_CTX;
  SSL_CTX_check_private_key : SSL_CTX -> Z;
  SSL_new : SSL_CTX -> option SSL;
  SSL_connect : SSL -> Z;
  SSL_accept : SSL -> Z;
  SSL_get_peer_certificate : SSL -> option X509
}.

(** Modelled from the spec: the stream primitive [tcp_stream], which
    [ssl.cc] only calls. [connect] and [accept] give a socket handle or a
    negative error, [bind] gives a negative error or not, and [close] can
    be repeated. What the network answers is a parameter. *)
Class Network := {
  net_connect : string -> Z -> Z;
  net_bind : Z -> Z;
  net_accept : Z;
  sock_get_ip : string
}.

Record tcp_stream := mkTcp { tcp_open : list Z }.

Definition tcp_opened (sock : Z) (t : tcp_stream) : tcp_stream :=
  if sock <? 0 then t else {| tcp_open := sock :: tcp_open t |}.

Definition tcp_close (t : tcp_stream) : tcp_stream := {| tcp_open := [] |}.

(** ** Events

    Every call that leaves [ssl.cc] is recorded, newest first, with the
    result it gave. *)
Inductive event :=
| EvLog (line : string)
| EvLibraryInit
| EvCtxNew (m : SSL_METHOD) (ok : bool)
| EvSslNew (ok : bool)
| EvConnect (host : string) (port : Z) (ret : Z)
| EvBind (port : Z) (ret : Z)
| EvAccept (ret : Z)
| EvSetFd (sock : Z)
| EvSslConnect (ret : Z)
| EvSslAccept (ret : Z)
| EvSetBlocking (sock : Z) (blocking : bool)
| EvX509Free
| EvSslRead (at_ : region) (num ret : Z)
| EvResize (n : nat)
| EvSslWrite (off num ret : Z)
| EvSslShutdown
| EvSslFree
| EvCtxFree
| EvTcpClose.

Definition history := list event.

(** ** Statements

    A statement runs on a state [S] and the history and either falls
    through to the next statement, executes [return v;], touches memory it
    must not (a NULL session, a pointer outside its buffer), or is still
    looping when the budget of loop iterations is used up. *)
Inductive outcome (S A : Type) :=
| Next (a : A) (s : S) (h : history)
| Return (v : Z) (s : S) (h : history)
| Fault (s : S) (h : history)
| Spin (s : S) (h : history).

Arguments Next {S A} a s h.
Arguments Return {S A} v s h.
Arguments Fault {S A} s h.
Arguments Spin {S A} s h.

Definition Exec (S A : Type) := S -> history -> outcome S A.

Definition pure {S A} (a : A) : Exec S A := fun s h => Next a s h.

Definition bind {S A B} (m : Exec S A) (k : A -> Exec S B) : Exec S B :=
  fun s h =>
    match m s h with
    | Next a s' h' => k a s' h'
    | Return v s' h' => Return v s' h'
    | Fault s' h' => Fault s' h'
    | Spin s' h' => Spin s' h'
    end.

Definition return_ {S A} (v : Z) : Exec S A := fun s h => Return v s h.

Definition fault {S A} : Exec S A := fun s h => Fault s h.

Definition emit {S} (e : event) : Exec S unit := fun s h => Next tt s (e :: h).

Definition get {S} : Exec S S := fun s h => Next s s h.

Declare Scope exec_scope.
Delimit Scope exec_scope with exec.
Notation "x <- m ;; k" := (bind m (fun x => k))
  (at level 61, m at next level, right associativity) : exec_scope.
Notation "m ;; k" := (bind m (fun _ => k))
  (at level 61, right associativity) : exec_scope.
Open Scope exec_scope.

Definition spin {S A} : Exec S A := fun s h => Spin s h.

(** [LOG(...)]: the text of the line, without its line ends and its
    arguments. *)
Definition LOG {S} (line : string) : Exec S unit := emit (EvLog line).

(** A function called on a part [s'] of the caller's state: its
    [return v;] hands [v] and the part back to the caller. A function of
    result type [int] always returns. *)
Definition call {S S'} (callee : Exec S' unit) (s' : S') : Exec S (Z * S') :=
  fun s h =>
    match callee s' h with
    | Next _ s1 h1 => Fault s h1
    | Return v s1 h1 => Next (v, s1) s h1
    | Fault _ h1 => Fault s h1
    | Spin _ h1 => Spin s h1
    end.

(** The events of a run in the order they happened. *)
Definition trace_of {S A} (o : outcome S A) : list event :=
  match o with
  | Next _ _ h | Return _ _ h | Fault _ h | Spin _ h => rev h
  end.

Definition state_of {S A} (o : outcome S A) : S :=
  match o with
  | Next _ s _ | Return _ s _ | Fault s _ | Spin s _ => s
  end.

Definition returned {S A} (o : outcome S A) : option Z :=
  match o with
  | Return v _ _ => Some v
  | _ => None
  end.

(** ** ssl.cc *)

Section SslCc.

Context {core : CoreDecls} {lib : OpenSSL} {net : Network}.

(** *** load SSL certificate / key from memory buffers and verify them *)

Definition use_certificate (cert : option X509) : Exec SSL_CTX Z :=
  fun ctx h => let (r, ctx') := SSL_CTX_use_certificate ctx cert in Next r ctx' h.

Definition use_RSAPrivateKey (key : option RSA) : Exec SSL_CTX Z :=
  fun ctx h => let (r, ctx') := SSL_CTX_use_RSAPrivateKey ctx key in Next r ctx' h.

Definition check_private_key : Exec SSL_CTX Z :=
  fun ctx h => Next (SSL_CTX_check_private_key ctx) ctx h.

(** [int ssl_load_cert_bufs(SSL_CTX * ctx, char * crt_buf, int crt_len,
    char * key_buf, int key_len)]; the context [ctx] points to is the
    state. *)
Definition ssl_load_cert_bufs (crt_buf : buffer) (crt_len : Z)
                              (key_buf : buffer) (key_len : Z)
  : Exec SSL_CTX unit :=
  (* load certificate into openssl memory buffer *)
  let cbio := BIO_new_mem_buf crt_buf (-1) in
  let cert := PEM_read_bio_X509 cbio in
  (* load key into openssl memory buffer *)
  let kbio := BIO_new_mem_buf key_buf (-1) in
  let key := PEM_read_bio_RSAPrivateKey kbio in
  (* perform verification *)
  r <- use_certificate cert ;;
  if r <=? 0 then
    LOG "error: openssl failed to load certificate buffer" ;; return_ (-1)
  else
  r <- use_RSAPrivateKey key ;;
  if r <=? 0 then
    LOG "error: openssl failed to load key buffer" ;; return_ (-1)
  else
  ok <- check_private_key ;;
  if ok =? 0 then
    LOG "error: private key does not match public certificate" ;; return_ (-1)
  else
  return_ 0.

(** *** debug function to print SSL certificate information *)

Definition ssl_dump_certs {S} (ssl : SSL) : Exec S unit :=
  (* get server certificate *)
  match SSL_get_peer_certificate ssl with
  | Some cert =>
      (* print cert subject *)
      LOG "[subject] %s" ;;
      (* print cert issuer *)
      LOG "[issuer] %s" ;;
      emit EvX509Free
  | None =>
      LOG "info: no certs to dump"
  end.

(** *** The transport object *)

Record ssl_transport := mkTransport {
  m_ctx : option SSL_CTX;
  m_ssl : option SSL;
  m_tcp : tcp_stream;
  m_opt_host : string;
  m_opt_port : Z
}.

Definition with_m_ctx (c : option SSL_CTX) (t : ssl_transport) : ssl_transport :=
  {| m_ctx := c; m_ssl := m_ssl t; m_tcp := m_tcp t;
     m_opt_host := m_opt_host t; m_opt_port := m_opt_port t |}.

Definition with_m_ssl (s : option SSL) (t : ssl_transport) : ssl_transport :=
  {| m_ctx := m_ctx t; m_ssl := s; m_tcp := m_tcp t;
     m_opt_host := m_opt_host t; m_opt_port := m_opt_port t |}.

Definition with_m_tcp (c : tcp_stream) (t : ssl_transport) : ssl_transport :=
  {| m_ctx := m_ctx t; m_ssl := m_ssl t; m_tcp := c;
     m_opt_host := m_opt_host t; m_opt_port := m_opt_port t |}.

Definition set_m_ctx (c : option SSL_CTX) : Exec ssl_transport unit :=
  fun t h => Next tt (with_m_ctx c t) h.

Definition set_m_ssl (s : option SSL) : Exec ssl_transport unit :=
  fun t h => Next tt (with_m_ssl s t) h.

Definition set_m_tcp (c : tcp_stream) : Exec ssl_transport unit :=
  fun t h => Next tt (with_m_tcp c t) h.

Definition is_some {A} (o : option A) : bool :=
  match o with Some _ => true | None => false end.

(** [m_tcp.connect(host, port)], [m_tcp.bind(port)], [m_tcp.accept()] *)
Definition tcp_connect (host : string) (port : Z) : Exec ssl_transport Z :=
  t <- get ;;
  let sock := net_connect host port in
  emit (EvConnect host port sock) ;;
  set_m_tcp (tcp_opened sock (m_tcp t)) ;;
  pure sock.

Definition tcp_bind (port : Z) : Exec ssl_transport Z :=
  let r := net_bind port in
  emit (EvBind port r) ;;
  pure r.

Definition tcp_accept : Exec ssl_transport Z :=
  t <- get ;;
  let sock := net_accept in
  emit (EvAccept sock) ;;
  set_m_tcp (tcp_opened sock (m_tcp t)) ;;
  pure sock.

(** A call on [m_ssl]; the library dereferences the pointer. *)
Definition on_ssl {A} (f : SSL -> Exec ssl_transport A) : Exec ssl_transport A :=
  t <- get ;;
  match m_ssl t with
  | None => fault
  | Some s => f s
  end.

Definition sock_set_blocking (sock : Z) (blocking : bool) : Exec ssl_transport unit :=
  emit (EvSetBlocking sock blocking).

(** *** blocking function to create SSL transport connection *)

Definition init (type : Z) : Exec ssl_transport unit :=
  (* fire up openssl *)
  emit EvLibraryInit ;;
  (* determine SSL method based on transport type *)
  method <- (if type =? TPT_CLIENT then pure TLSv1_client_method
             else if type =? TPT_SERVER then pure TLSv1_server_method
             else (LOG "error: invalid transport type" ;; return_ (-1))) ;;
  (* create SSL context *)
  set_m_ctx (SSL_CTX_new method) ;;
  emit (EvCtxNew method (is_some (SSL_CTX_new method))) ;;
  t <- get ;;
  match m_ctx t with
  | None => LOG "error: ssl failed to created new CTX" ;; return_ (-1)
  | Some ctx =>
  (* load SSL certificates from memory and verifies them;
     the callee changes the context [m_ctx] points to *)
  rc <- call (ssl_load_cert_bufs _crtbuf _crtbuf_len _keybuf _keybuf_len) ctx ;;
  set_m_ctx (Some (snd rc)) ;;
  if fst rc <? 0 then
    LOG "error: ssl failed to verify certificates" ;; return_ (-1)
  else
  LOG "info: SSL certificates verified" ;;
  (* create ssl session *)
  set_m_ssl (SSL_new (snd rc)) ;;
  emit (EvSslNew (is_some (SSL_new (snd rc)))) ;;
  t <- get ;;
  match m_ssl t with
  | None => LOG "error: ssl failed to create session" ;; return_ (-1)
  | Some _ =>
  (* initialise connection based on whether we are the client or server *)
  sock <- (if type =? TPT_CLIENT then
             (* if client, connect to c2 server *)
             sock <- tcp_connect (m_opt_host t) (m_opt_port t) ;;
             if sock <? 0 then return_ (-1) else
             (* pass socket to openssl *)
             on_ssl (fun s => set_m_ssl (Some (SSL_set_fd s sock)) ;;
                              emit (EvSetFd sock)) ;;
             r <- on_ssl (fun s => emit (EvSslConnect (SSL_connect s)) ;;
                                   pure (SSL_connect s)) ;;
             if r <? 0 then
               LOG "error: ssl connect failed" ;; return_ (-1)
             else pure sock
           else if type =? TPT_SERVER then
             (* if server, bind to desired port and listen for connections *)
             LOG "info: c2 server at %s:%d" ;;
             r <- tcp_bind (m_opt_port t) ;;
             if r <? 0 then return_ (-1) else
             (* accept incoming connection *)
             LOG "info: waiting for client..." ;;
             sock <- tcp_accept ;;
             if sock <? 0 then return_ (-1) else
             (* pass client socket to openssl and accept the connection *)
             on_ssl (fun s => set_m_ssl (Some (SSL_set_fd s sock)) ;;
                              emit (EvSetFd sock)) ;;
             r <- on_ssl (fun s => emit (EvSslAccept (SSL_accept s)) ;;
                                   pure (SSL_accept s)) ;;
             if r <? 0 then
               LOG "error: ssl accept failed" ;; return_ (-1)
             else pure sock
           else
             (LOG "error: invalid transport type" ;; return_ (-1))) ;;
  (* log ssl connection info / make socket non-blocking *)
  LOG "info: SSL connected using cipher (%s)" ;;
  sock_set_blocking sock false ;;
  on_ssl ssl_dump_certs ;;
  (* success! *)
  return_ 0
  end
  end.

(** *** SSL implementation to send transport msg's

    [msg.data_len()] and the counts of [send] are [int]s; the length of a
    message is taken to fit one, and [bytes_sent] then stays between 0 and
    that length as long as the writes transfer bytes. *)

(** [SSL_write(m_ssl, msg.data() + off, num)] *)
Definition ssl_write (msg : message) (off num : Z) : Exec ssl_transport Z :=
  on_ssl (fun s =>
    match ptr_add (data msg) off with
    | None => fault
    | Some buf =>
        set_m_ssl (Some (snd (SSL_write s buf num))) ;;
        emit (EvSslWrite off num (fst (SSL_write s buf num))) ;;
        pure (fst (SSL_write s buf num))
    end).

(** The [while] loop of [send]; it gives the final [bytes_sent]. [fuel]
    bounds the number of iterations that are followed. *)
Fixpoint send_loop (fuel : nat) (msg : message) (len bytes_sent : Z)
  : Exec ssl_transport Z :=
  if bytes_sent <? len then
    match fuel with
    | O => spin
    | S fuel' =>
        bytes <- ssl_write msg bytes_sent (len - bytes_sent) ;;
        if bytes =? -1 then
          LOG "error: SSL transport failed to send message!" ;; return_ (-1)
        else
          send_loop fuel' msg len (bytes_sent + bytes)
    end
  else pure bytes_sent.

Definition send (fuel : nat) (msg : message) : Exec ssl_transport unit :=
  let len := data_len msg in
  (* send all data *)
  bytes_sent <- send_loop fuel msg len 0 ;;
  return_ bytes_sent.

(** *** SSL implementation to receive transport msg's

    [recv] changes the message it is given, so it runs on the message
    together with the transport. The lengths [msg.header_len] and
    [msg.body_len()] are passed to [SSL_read] as they are: they are taken
    to fit the [int] parameter. *)

Definition ssl_read_into (at_ : region) (num : Z)
  : Exec (message * ssl_transport) Z :=
  fun st h =>
    let (msg, t) := st in
    match m_ssl t with
    | None => Fault st h
    | Some s =>
        let r := fst (fst (SSL_read s num)) in
        let got := snd (fst (SSL_read s num)) in
        let s' := snd (SSL_read s num) in
        Next r (store at_ got msg, with_m_ssl (Some s') t)
             (EvSslRead at_ num r :: h)
    end.

Definition msg_body_len : Exec (message * ssl_transport) nat :=
  fun st h => Next (body_len (fst st)) st h.

Definition msg_resize (n : nat) : Exec (message * ssl_transport) unit :=
  fun st h => Next tt (resize n (fst st), snd st) (EvResize n :: h).

Definition recv : Exec (message * ssl_transport) unit :=
  (* receive the message header first to determine size *)
  bytes <- ssl_read_into AtData (Z.of_nat header_len) ;;
  if bytes =? 0 then
    return_ TPT_CLOSE
  else if bytes <? 0 then
    return_ TPT_EMPTY
  else
  (* enforce size constraint, in case of malicious msg sizes *)
  n <- msg_body_len ;;
  msg_resize n ;;
  n' <- msg_body_len ;;
  bytes <- ssl_read_into AtBody (Z.of_nat n') ;;
  return_ bytes.

(** *** tear down SSL connection *)

Definition close : Exec ssl_transport unit :=
  (* free openssl data structures *)
  t <- get ;;
  match m_ssl t with
  | Some _ => emit EvSslShutdown ;; emit EvSslFree ;; set_m_ssl None
  | None => pure tt
  end ;;
  t <- get ;;
  match m_ctx t with
  | Some _ => emit EvCtxFree ;; set_m_ctx None
  | None => pure tt
  end ;;
  (* clean up tcp stream *)
  t <- get ;;
  emit EvTcpClose ;;
  set_m_tcp (tcp_close (m_tcp t)).

(** *** ssl transport ctors / dtors *)

Definition ssl_transport_new : ssl_transport :=
  {| m_ctx := None; m_ssl := None; m_tcp := {| tcp_open := [] |};
     m_opt_host := sock_get_ip; m_opt_port := 443 |}.

Definition ssl_transport_delete : Exec ssl_transport unit := close.

End SslCc.

(** ** The rest of ssl.cc

    The loader that reads the identity from files and the option setter,
    with the declarations they need: the option tags of [ssl.h], [atoi] of
    the C library and the file calls of OpenSSL. *)

Class SslDecls := {
  SSL_OPT_HOST : Z;
  SSL_OPT_PORT : Z
}.

Class Libc := {
  (** [atoi] on the C string of a [std::string] *)
  atoi : string -> Z
}.

(** The calls that load a PEM file into a context; what the files hold is
    part of the functions. *)
Class OpenSSLFiles {lib : OpenSSL} := {
  SSL_FILETYPE_PEM : Z;
  SSL_CTX_use_certificate_file : SSL_CTX -> string -> Z -> Z * SSL_CTX;
  SSL_CTX_use_PrivateKey_file : SSL_CTX -> string -> Z -> Z * SSL_CTX
}.

Section SslCcRest.

Context {lib : OpenSSL} {files : OpenSSLFiles} {decls : SslDecls} {libc : Libc}.

(** *** load SSL certificate / key files and verify them *)

Definition use_certificate_file (file : string) (type : Z) : Exec SSL_CTX Z :=
  fun ctx h =>
    let (r, ctx') := SSL_CTX_use_certificate_file ctx file type in Next r ctx' h.

Definition use_PrivateKey_file (file : string) (type : Z) : Exec SSL_CTX Z :=
  fun ctx h =>
    let (r, ctx') := SSL_CTX_use_PrivateKey_file ctx file type in Next r ctx' h.

(** [int ssl_load_certs(SSL_CTX * ctx, char * cert_file, char * key_file)] *)
Definition ssl_load_certs (cert_file key_file : string) : Exec SSL_CTX unit :=
  (* set local cert from certfile *)
  r <- use_certificate_file cert_file SSL_FILETYPE_PEM ;;
  if r <=? 0 then
    LOG "error: failed to load certificate file" ;; return_ (-1)
  else
  (* set private key from keyfile (may be same as cert) *)
  r <- use_PrivateKey_file key_file SSL_FILETYPE_PEM ;;
  if r <=? 0 then
    LOG "error: failed to load key file" ;; return_ (-1)
  else
  (* verify private key *)
  ok <- check_private_key ;;
  if ok =? 0 then
    LOG "error: private key does not match public certificate" ;; return_ (-1)
  else
  return_ 0.

(** *** SSL implementation for handling transport options *)

Definition with_m_opt_host (host : string) (t : ssl_transport) : ssl_transport :=
  {| m_ctx := m_ctx t; m_ssl := m_ssl t; m_tcp := m_tcp t;
     m_opt_host := host; m_opt_port := m_opt_port t |}.

Definition with_m_opt_port (port : Z) (t : ssl_transport) : ssl_transport :=
  {| m_ctx := m_ctx t; m_ssl := m_ssl t; m_tcp := m_tcp t;
     m_opt_host := m_opt_host t; m_opt_port := port |}.

(** [void ssl_transport::setopt(int opt, std::string value)]; the [switch]
    has the two cases and no default. *)
Definition setopt (opt : Z) (value : string) : Exec ssl_transport unit :=
  if opt =? SSL_OPT_HOST then
    fun t h => Next tt (with_m_opt_host value t) h
  else if opt =? SSL_OPT_PORT then
    fun t h => Next tt (with_m_opt_port (atoi value) t) h
  else
    pure tt.

End SslCcRest.

(** ** The vocabulary of the properties *)

(** The message as the header read of [recv] leaves it. *)
Definition after_header `{CoreDecls} (s : SSL) (msg : message) : message :=
  store AtData (snd (fst (SSL_read s (Z.of_nat header_len)))) msg.

(** [write_run len off evs]: [evs] are [SSL_write] calls that start at
    offset [off], each asks for all that is left of [len] bytes at the
    offset the earlier calls have reached, each transfers at least one
    byte, and together they reach [len]. *)
Inductive write_run (len : Z) : Z -> list event -> Prop :=
| write_run_done : write_run len len []
| write_run_step (off r : Z) (evs : list event) :
    off < len ->
    0 < r <= len - off ->
    write_run len (off + r) evs ->
    write_run len off (EvSslWrite off (len - off) r :: evs).

(** The bytes that the writes among [evs] report as transferred. *)
Fixpoint written (evs : list event) : Z :=
  match evs with
  | [] => 0
  | EvSslWrite _ _ r :: evs' => r + written evs'
  | _ :: evs' => written evs'
  end.

(** The steps of [init] that use the stream: connect, bind, accept and
    the two handshakes. *)
Definition is_stream_step (e : event) : bool :=
  match e with
  | EvConnect _ _ _ | EvBind _ _ | EvAccept _
  | EvSslConnect _ | EvSslAccept _ => true
  | _ => false
  end.

(** A step has failed when its result is negative; this is the test
    [init] applies to each of them. *)
Definition step_failed (e : event) : bool :=
  match e with
  | EvConnect _ _ r | EvBind _ r | EvAccept r
  | EvSslConnect r | EvSslAccept r => r <? 0
  | _ => false
  end.

Definition is_handshake (e : event) : bool :=
  match e with
  | EvSslConnect _ | EvSslAccept _ => true
  | _ => false
  end.

(** A handshake that has completed and not failed. *)
Definition handshake_done (e : event) : bool :=
  is_handshake e && negb (step_failed e).

Definition is_mode_change (e : event) : bool :=
  match e with
  | EvSetBlocking _ _ => true
  | _ => false
  end.

Definition is_log (e : event) : bool :=
  match e with
  | EvLog _ => true
  | _ => false
  end.

Definition session_created (e : event) : bool :=
  match e with
  | EvSslNew true => true
  | _ => false
  end.

(** What a client does with the stream: nothing when no session was
    created, else a connect, followed, unless the connect failed, by the
    connect-side handshake. *)
Definition client_path (tr : list event) : Prop :=
  match filter is_stream_step tr with
  | [] => existsb session_created tr = false
  | [EvConnect _ _ c] => c < 0
  | [EvConnect _ _ c; EvSslConnect _] => 0 <= c
  | _ => False
  end.

(** What a server does with the stream: nothing when no session was
    created, else a bind, followed, unless it failed, by an accept,
    followed, unless it failed, by the accept-side handshake. *)
Definition server_path (tr : list event) : Prop :=
  match filter is_stream_step tr with
  | [] => existsb session_created tr = false
  | [EvBind _ b] => b < 0
  | [EvBind _ b; EvAccept a] => 0 <= b /\ a < 0
  | [EvBind _ b; EvAccept a; EvSslAccept _] => 0 <= b /\ 0 <= a
  | _ => False
  end.

(** The history of a run, newest event first, as the next call finds it. *)
Definition history_of {S A} (o : outcome S A) : history :=
  match o with
  | Next _ _ h | Return _ _ h | Fault _ h | Spin _ h => h
  end.

Definition ctx_created (e : event) : bool :=
  match e with
  | EvCtxNew _ true => true
  | _ => false
  end.

Definition is_ctx_free (e : event) : bool :=
  match e with
  | EvCtxFree => true
  | _ => false
  end.

Definition is_ssl_free (e : event) : bool :=
  match e with
  | EvSslFree => true
  | _ => false
  end.

(** The events with which [close] gives something back. *)
Definition is_release (e : event) : bool :=
  match e with
  | EvSslShutdown | EvSslFree | EvCtxFree | EvTcpClose => true
  | _ => false
  end.

(** A connect or a bind that is made with the given host and port; any
    other event will do. *)
Definition aims_at (host : string) (port : Z) (e : event) : Prop :=
  match e with
  | EvConnect h p _ => h = host /\ p = port
  | EvBind p _ => p = port
  | _ => True
  end.

(** The context [ctx] with the embedded identity installed, when the
    library takes the certificate, takes the key and finds that they fit:
    the case in which [ssl_load_cert_bufs] returns 0. *)
Definition identity_loads `{CoreDecls} `{OpenSSL} (ctx : SSL_CTX) : option SSL_CTX :=
  let u1 := SSL_CTX_use_certificate ctx (PEM_read_bio_X509 (c_str _crtbuf)) in
  let u2 := SSL_CTX_use_RSAPrivateKey (snd u1)
              (PEM_read_bio_RSAPrivateKey (c_str _keybuf)) in
  if (0 <? fst u1) && (0 <? fst u2)
     && negb (SSL_CTX_check_private_key (snd u2) =? 0)
  then Some (snd u2) else None.

(** ** Concrete collaborators

    Small instances of the interfaces, used to run the code. *)

Module Demo.

(** The constants take values that tell them apart; the header is a
    big-endian number. *)
Definition be_number (hdr : buffer) : nat :=
  fold_left (fun acc b => (acc * 256 + Byte.to_nat b)%nat) hdr 0%nat.

Definition core : CoreDecls :=
  {| TPT_CLIENT := 0;
     TPT_SERVER := 1;
     TPT_CLOSE := -2;
     TPT_EMPTY := -3;
     header_len := 4;
     decode_body_len := be_number;
     _crtbuf := [x43; x45; x52; x54; x00; x4b];
     _crtbuf_len := 4;
     _keybuf := [x43; x45; x52; x54; x00];
     _keybuf_len := 4 |}.

Record ctx := mkCtx {
  ctx_method : SSL_METHOD;
  ctx_cert : option buffer;
  ctx_key : option buffer
}.

Definition byte_eqb_list (a b : buffer) : bool :=
  if list_eq_dec Byte.byte_eq_dec a b then true else false.

(** A library in which a PEM block is any non-empty text, a key fits the
    certificate with the same text, the context is created or not
    ([ctx_ok]), the session is [sess] and the two handshakes give
    [hs_connect] and [hs_accept]. *)
Definition lib (ctx_ok : bool) (sess : option SSL) (hs_connect hs_accept : Z)
  : OpenSSL :=
  {| SSL_CTX := ctx;
     X509 := buffer;
     RSA := buffer;
     SSL_CTX_new := fun m =>
       if ctx_ok then Some (mkCtx m None None) else None;
     PEM_read_bio_X509 := fun bio =>
       match bio with [] => None | _ => Some bio end;
     PEM_read_bio_RSAPrivateKey := fun bio =>
       match bio with [] => None | _ => Some bio end;
     SSL_CTX_use_certificate := fun c x =>
       match x with
       | None => (0, c)
       | Some _ => (1, mkCtx (ctx_method c) x (ctx_key c))
       end;
     SSL_CTX_use_RSAPrivateKey := fun c k =>
       match k with
       | None => (0, c)
       | Some _ => (1, mkCtx (ctx_method c) (ctx_cert c) k)
       end;
     SSL_CTX_check_private_key := fun c =>
       match ctx_cert c, ctx_key c with
       | Some x, Some k => if byte_eqb_list x k then 1 else 0
       | _, _ => 0
       end;
     SSL_new := fun _ => sess;
     SSL_connect := fun _ => hs_connect;
     SSL_accept := fun _ => hs_accept;
     SSL_get_peer_certificate := fun s =>
       match ssl_fd s with
       | Some _ => Some [x50; x45; x45; x52]
       | None => None
       end |}.

Definition net (connect_ret bind_ret accept_ret : Z) : Network :=
  {| net_connect := fun _ _ => connect_ret;
     net_bind := fun _ => bind_ret;
     net_accept := accept_ret;
     sock_get_ip := "127.0.0.1" |}.

(** A session whose peer has sent [rx] and whose writes meet [tx]. *)
Definition session (rx : list rx_item) (tx : nat -> tx_item) : SSL :=
  {| ssl_fd := Some 5; ssl_rx := rx; ssl_tx := tx;
     ssl_tx_calls := 0; ssl_sent := [] |}.

Definition quiet : SSL := session [] (fun _ => TxAccept 16384).

(** A transport on which [init] has succeeded with session [s]. *)
Definition established (s : SSL) : @ssl_transport (lib true (Some s) 1 1) :=
  @mkTransport (lib true (Some s) 1 1)
    (Some (mkCtx TLSv1_client_method None None))
    (Some s) {| tcp_open := [5] |} "127.0.0.1" 443.

(** The message with body "PING" and the four bytes 0 0 0 4 in front. *)
Definition ping : message :=
  {| header := [x00; x00; x00; x04]; body := [x50; x49; x4e; x47] |}.

Definition empty_msg : message :=
  {| header := [x00; x00; x00; x00]; body := [] |}.

(** Writes of which the second one fails with [-2]. *)
Definition flaky (i : nat) : tx_item :=
  match i with
  | 0%nat => TxAccept 3
  | 1%nat => TxError 2 0
  | _ => TxAccept 16384
  end.

(** A peer that has sent a header announcing 8 body bytes in one record
    and the first 3 of them in the next. *)
Definition split_body : list rx_item :=
  [RxRecord x00 [x00; x00; x08]; RxRecord x61 [x62; x63]].

End Demo.


(** * Properties *)

Unset Implicit Arguments.

(** ** Buffers and the session *)

Lemma length_overwrite (src dst : buffer) :
  (length src <= length dst)%nat -> length (overwrite src dst) = length dst.
Proof.
  intros Hle. unfold overwrite.
  rewrite length_app, length_skipn. lia.
Qed.

Lemma overwrite_all (src dst : buffer) :
  length src = length dst -> overwrite src dst = src.
Proof.
  intros Heq. unfold overwrite.
  rewrite skipn_all2 by lia. apply app_nil_r.
Qed.

Lemma length_resize_buf (n : nat) (buf : buffer) :
  length (resize_buf n buf) = n.
Proof.
  unfold resize_buf.
  rewrite length_app, length_firstn, repeat_length. lia.
Qed.

Lemma c_str_no_nul (buf : buffer) : ~ In x00 (c_str buf).
Proof.
  induction buf as [|b rest IH]; simpl; [tauto|].
  destruct (Byte.eqb b x00) eqn:E; simpl; [tauto|].
  intros [H|H]; [|tauto].
  subst b. discriminate E.
Qed.

(** [SSL_read] never hands over more than it was asked for. *)
Lemma SSL_read_bound (s : SSL) (num : Z) :
  (length (snd (fst (SSL_read s num))) <= Z.to_nat num)%nat.
Proof.
  unfold SSL_read.
  destruct (ssl_rx s) as [|[b bs| |p] rest]; simpl; try lia.
  destruct (num <=? 0) eqn:E; simpl; [lia|].
  apply Z.leb_gt in E.
  destruct (Z.to_nat num) as [|k] eqn:K; [lia|].
  simpl. rewrite length_firstn. lia.
Qed.

(** A positive result of [SSL_read] counts the bytes handed over. *)
Lemma SSL_read_count (s : SSL) (num : Z) :
  0 < fst (fst (SSL_read s num)) ->
  fst (fst (SSL_read s num)) = Z.of_nat (length (snd (fst (SSL_read s num)))).
Proof.
  unfold SSL_read.
  destruct (ssl_rx s) as [|[b bs| |p] rest]; simpl; try lia.
  destruct (num <=? 0) eqn:E; simpl; [|reflexivity].
  apply Z.leb_le in E. lia.
Qed.

Section Receive.

Context {core : CoreDecls} {lib : OpenSSL}.

(** [recv] when the header read gives nothing: one read, no resize. *)
Lemma recv_no_header (msg : message) (t : ssl_transport) (s : SSL) (h : history) :
  m_ssl t = Some s ->
  fst (fst (SSL_read s (Z.of_nat header_len))) <= 0 ->
  exists st,
    recv (msg, t) h =
    Return (if fst (fst (SSL_read s (Z.of_nat header_len))) =? 0
            then TPT_CLOSE else TPT_EMPTY)
           st
           (EvSslRead AtData (Z.of_nat header_len)
                      (fst (fst (SSL_read s (Z.of_nat header_len)))) :: h).
Proof.
  intros Hs Hr.
  unfold recv, bind, ssl_read_into. rewrite Hs.
  destruct (fst (fst (SSL_read s (Z.of_nat header_len))) =? 0) eqn:E0.
  - eexists. reflexivity.
  - destruct (fst (fst (SSL_read s (Z.of_nat header_len))) <? 0) eqn:E1.
    + eexists. reflexivity.
    + apply Z.eqb_neq in E0. apply Z.ltb_ge in E1. lia.
Qed.

(** [recv] when the header read gives bytes: the run of the three calls. *)
Lemma recv_with_header (msg : message) (t : ssl_transport) (s : SSL) (h : history) :
  m_ssl t = Some s ->
  0 < fst (fst (SSL_read s (Z.of_nat header_len))) ->
  let r1 := fst (fst (SSL_read s (Z.of_nat header_len))) in
  let s1 := snd (SSL_read s (Z.of_nat header_len)) in
  let msg1 := after_header s msg in
  let n := body_len msg1 in
  let rd := SSL_read s1 (Z.of_nat n) in
  recv (msg, t) h =
  Return (fst (fst rd))
         (store AtBody (snd (fst rd)) (resize n msg1),
          with_m_ssl (Some (snd rd)) t)
         (EvSslRead AtBody (Z.of_nat n) (fst (fst rd))
          :: EvResize n
          :: EvSslRead AtData (Z.of_nat header_len) r1 :: h).
Proof.
  intros Hs Hr. cbv zeta.
  unfold recv, bind, ssl_read_into. rewrite Hs.
  destruct (fst (fst (SSL_read s (Z.of_nat header_len))) =? 0) eqn:E0;
    [apply Z.eqb_eq in E0; lia|].
  destruct (fst (fst (SSL_read s (Z.of_nat header_len))) <? 0) eqn:E1;
    [apply Z.ltb_lt in E1; lia|].
  reflexivity.
Qed.

End Receive.

Section ReceiveClaims.

Context {core : CoreDecls} {lib : OpenSSL}.

(** C3. When the header read of [recv] gives 0 bytes, [recv] returns
    [TPT_CLOSE]; when it gives a negative result, [recv] returns
    [TPT_EMPTY]. In both cases that single read is all [recv] does. *)
Theorem recv_closed_or_empty
    (msg : message) (t : ssl_transport) (s : SSL) (h : history) :
  m_ssl t = Some s ->
  let r := fst (fst (SSL_read s (Z.of_nat header_len))) in
  (r = 0 ->
     returned (recv (msg, t) h) = Some TPT_CLOSE /\
     trace_of (recv (msg, t) h)
       = rev h ++ [EvSslRead AtData (Z.of_nat header_len) 0]) /\
  (r < 0 ->
     returned (recv (msg, t) h) = Some TPT_EMPTY /\
     trace_of (recv (msg, t) h)
       = rev h ++ [EvSslRead AtData (Z.of_nat header_len) r]).
Proof.
  intros Hs r. split; intros Hr.
  - destruct (recv_no_header msg t s h Hs) as [st E]; [fold r; lia|].
    fold r in E. rewrite Hr in E. rewrite E. simpl. auto.
  - destruct (recv_no_header msg t s h Hs) as [st E]; [fold r; lia|].
    fold r in E. rewrite E. simpl.
    destruct (r =? 0) eqn:E0; [apply Z.eqb_eq in E0; lia|]. auto.
Qed.

(** C1. Once the header read has given bytes, [recv] resizes the body
    storage to the body length the header now holds and only then reads
    the body, asking for exactly that length: the storage that receives
    the body has that length when the read is made and keeps it, and
    neither the calls nor their results depend on the body storage the
    message came with. *)
Theorem recv_resizes_before_body_read
    (msg : message) (t : ssl_transport) (s : SSL) (h : history) :
  m_ssl t = Some s ->
  0 < fst (fst (SSL_read s (Z.of_nat header_len))) ->
  let r1 := fst (fst (SSL_read s (Z.of_nat header_len))) in
  let n := body_len (after_header s msg) in
  exists r2 got,
    (forall old_body : buffer,
       let msg0 := {| header := header msg; body := old_body |} in
       exists t',
         recv (msg0, t) h =
         Return r2
                (store AtBody got (resize n (after_header s msg0)), t')
                (EvSslRead AtBody (Z.of_nat n) r2
                 :: EvResize n
                 :: EvSslRead AtData (Z.of_nat header_len) r1 :: h) /\
         length (body (resize n (after_header s msg0))) = n /\
         length (body (store AtBody got (resize n (after_header s msg0)))) = n).
Proof.
  intros Hs Hr r1 n.
  set (s1 := snd (SSL_read s (Z.of_nat header_len))).
  exists (fst (fst (SSL_read s1 (Z.of_nat n)))),
         (snd (fst (SSL_read s1 (Z.of_nat n)))).
  intros old_body msg0.
  assert (Hn : body_len (after_header s msg0) = n) by reflexivity.
  exists (with_m_ssl (Some (snd (SSL_read s1 (Z.of_nat n)))) t).
  split; [|split].
  - rewrite (recv_with_header msg0 t s h Hs Hr). rewrite Hn. reflexivity.
  - simpl. apply length_resize_buf.
  - simpl. rewrite length_overwrite; rewrite length_resize_buf; [reflexivity|].
    pose proof (SSL_read_bound s1 (Z.of_nat n)) as B.
    rewrite Nat2Z.id in B. exact B.
Qed.

(** C4, as amended. When the header read gives exactly [header_len]
    bytes, they fill the header region; [recv] then asks, in one read, for
    exactly the body length this header holds, into the body storage
    resized to that length, and returns the result of that read: when
    positive it is the number of body bytes obtained, which is at most the
    length asked for. *)
Theorem recv_full_header_then_body
    (msg : message) (t : ssl_transport) (s : SSL) (h : history) :
  m_ssl t = Some s ->
  wf_message msg ->
  (0 < header_len)%nat ->
  fst (fst (SSL_read s (Z.of_nat header_len))) = Z.of_nat header_len ->
  let hdr := snd (fst (SSL_read s (Z.of_nat header_len))) in
  let s1 := snd (SSL_read s (Z.of_nat header_len)) in
  let n := decode_body_len hdr in
  let rd := SSL_read s1 (Z.of_nat n) in
  length hdr = header_len /\
  recv (msg, t) h =
  Return (fst (fst rd))
         ({| header := hdr;
             body := overwrite (snd (fst rd)) (resize_buf n (body msg)) |},
          with_m_ssl (Some (snd rd)) t)
         (EvSslRead AtBody (Z.of_nat n) (fst (fst rd))
          :: EvResize n
          :: EvSslRead AtData (Z.of_nat header_len) (Z.of_nat header_len) :: h) /\
  (0 < fst (fst rd) ->
     fst (fst rd) = Z.of_nat (length (snd (fst rd))) /\
     fst (fst rd) <= Z.of_nat n).
Proof.
  intros Hs Hwf Hpos Hfull hdr s1 n rd.
  assert (Hr : 0 < fst (fst (SSL_read s (Z.of_nat header_len)))) by lia.
  assert (Hlen : length hdr = header_len).
  { pose proof (SSL_read_count s (Z.of_nat header_len) Hr) as C.
    fold hdr in C. lia. }
  assert (Hhdr : overwrite hdr (header msg) = hdr).
  { apply overwrite_all. rewrite Hlen. symmetry. exact Hwf. }
  split; [exact Hlen|]. split.
  - rewrite (recv_with_header msg t s h Hs Hr).
    unfold after_header, body_len. simpl. fold hdr. rewrite Hhdr.
    rewrite Hfull. reflexivity.
  - intros Hp. split.
    + apply SSL_read_count. exact Hp.
    + pose proof (SSL_read_count s1 (Z.of_nat n) Hp) as C.
      pose proof (SSL_read_bound s1 (Z.of_nat n)) as B.
      fold rd in C, B. rewrite Nat2Z.id in B. lia.
Qed.

End ReceiveClaims.

Section Send.

Context {lib : OpenSSL}.

Lemma ptr_add_inside (buf : buffer) (off : Z) :
  0 <= off <= Z.of_nat (length buf) ->
  ptr_add buf off = Some (skipn (Z.to_nat off) buf).
Proof.
  intros [H0 H1]. unfold ptr_add.
  destruct (off <? 0) eqn:E0; [apply Z.ltb_lt in E0; lia|].
  destruct (Z.of_nat (length buf) <? off) eqn:E1; [apply Z.ltb_lt in E1; lia|].
  reflexivity.
Qed.

(** One [SSL_write] of [send] from inside the message. *)
Lemma ssl_write_run (msg : message) (off num : Z)
      (t : ssl_transport) (s : SSL) (h : history) :
  m_ssl t = Some s ->
  0 <= off <= data_len msg ->
  let w := SSL_write s (skipn (Z.to_nat off) (data msg)) num in
  ssl_write msg off num t h =
  Next (fst w) (with_m_ssl (Some (snd w)) t) (EvSslWrite off num (fst w) :: h).
Proof.
  intros Hs Hoff w.
  unfold ssl_write, on_ssl, bind, get. rewrite Hs.
  rewrite ptr_add_inside by exact Hoff.
  reflexivity.
Qed.

(** A write that finds room transfers between one byte and what was
    asked for, and hands the peer that many bytes of the buffer. *)
Lemma SSL_write_accept (s : SSL) (buf : buffer) (num : Z) (cap : positive) :
  ssl_tx s (ssl_tx_calls s) = TxAccept cap ->
  0 < num ->
  let w := SSL_write s buf num in
  0 < fst w <= num /\
  ssl_sent (snd w) = ssl_sent s ++ firstn (Z.to_nat (fst w)) buf /\
  ssl_tx_calls (snd w) = S (ssl_tx_calls s) /\
  ssl_tx (snd w) = ssl_tx s.
Proof.
  intros Htx Hnum. unfold SSL_write. rewrite Htx. simpl.
  repeat split; lia.
Qed.

(** The counts of a run of writes add up to what was left to send. *)
Lemma write_run_total (len off : Z) (evs : list event) :
  write_run len off evs -> off + written evs = len.
Proof.
  induction 1 as [|off r evs Hlt Hr Hrun IH]; simpl; lia.
Qed.

(** The loop of [send] when every write finds room: it ends with
    [bytes_sent = len], and the peer has received the rest of the
    message. *)
Lemma send_loop_completes (msg : message) (fuel : nat) :
  forall (off : Z) (t : ssl_transport) (s : SSL) (h : history),
    m_ssl t = Some s ->
    (forall i, (ssl_tx_calls s <= i)%nat -> exists cap, ssl_tx s i = TxAccept cap) ->
    0 <= off <= data_len msg ->
    (Z.to_nat (data_len msg - off) <= fuel)%nat ->
    exists (s' : SSL) (evs : list event),
      send_loop fuel msg (data_len msg) off t h =
      Next (data_len msg) (with_m_ssl (Some s') t) (rev evs ++ h) /\
      write_run (data_len msg) off evs /\
      ssl_sent s' = ssl_sent s ++ skipn (Z.to_nat off) (data msg).
Proof.
  induction fuel as [|fuel IH]; intros off t s h Hs Htx Hoff Hfuel.
  - assert (off = data_len msg) by lia. subst off.
    exists s, []. simpl. rewrite Z.ltb_irrefl.
    split; [|split].
    + unfold pure. f_equal. destruct t; unfold with_m_ssl; simpl in *.
      rewrite Hs. reflexivity.
    + constructor.
    + unfold data_len. rewrite Nat2Z.id, skipn_all, app_nil_r. reflexivity.
  - simpl. destruct (off <? data_len msg) eqn:Elt.
    + apply Z.ltb_lt in Elt.
      unfold bind at 1.
      rewrite (ssl_write_run msg off (data_len msg - off) t s h Hs Hoff).
      cbv zeta.
      set (buf := skipn (Z.to_nat off) (data msg)).
      destruct (Htx (ssl_tx_calls s) (Nat.le_refl _)) as [cap Hcap].
      destruct (SSL_write_accept s buf (data_len msg - off) cap Hcap)
        as ([Hr0 Hr1] & Hsent & Hcalls & Htx'); [lia|].
      set (w := SSL_write s buf (data_len msg - off)) in *.
      destruct (fst w =? -1) eqn:E1; [apply Z.eqb_eq in E1; lia|].
      destruct (IH (off + fst w) (with_m_ssl (Some (snd w)) t) (snd w)
                   (EvSslWrite off (data_len msg - off) (fst w) :: h))
        as (s' & evs & Hrun & Hchain & Hsent').
      * reflexivity.
      * intros i Hi. rewrite Htx'. apply Htx. lia.
      * lia.
      * lia.
      * exists s', (EvSslWrite off (data_len msg - off) (fst w) :: evs).
        split; [|split].
        -- rewrite Hrun. simpl rev. rewrite <- app_assoc. reflexivity.
        -- constructor; [lia|lia|exact Hchain].
        -- rewrite Hsent', Hsent, <- app_assoc. f_equal.
           subst buf. rewrite Z2Nat.inj_add by lia.
           rewrite Nat.add_comm, <- skipn_skipn.
           apply firstn_skipn.
    + apply Z.ltb_ge in Elt. assert (off = data_len msg) by lia. subst off.
      exists s, []. split; [|split].
      * unfold pure. f_equal. destruct t; unfold with_m_ssl; simpl in *.
        rewrite Hs. reflexivity.
      * constructor.
      * unfold data_len. rewrite Nat2Z.id, skipn_all, app_nil_r. reflexivity.
Qed.

(** A write that reports [-1] ends [send] at once with [-1]. *)
Lemma send_loop_minus_one (msg : message) (fuel : nat) (off : Z)
      (t : ssl_transport) (s : SSL) (h : history) (k : nat) :
  m_ssl t = Some s ->
  0 <= off < data_len msg ->
  ssl_tx s (ssl_tx_calls s) = TxError 1 k ->
  returned (send_loop (S fuel) msg (data_len msg) off t h) = Some (-1).
Proof.
  intros Hs Hoff Htx. simpl.
  destruct (off <? data_len msg) eqn:Elt; [|apply Z.ltb_ge in Elt; lia].
  unfold bind at 1.
  rewrite (ssl_write_run msg off (data_len msg - off) t s h Hs) by lia.
  cbv zeta. unfold SSL_write. rewrite Htx. reflexivity.
Qed.

(** A write that reports another negative number does not end [send]:
    the number is added to [bytes_sent] and the loop goes on. *)
Lemma send_loop_other_negative (msg : message) (fuel : nat) (off : Z)
      (t : ssl_transport) (s : SSL) (h : history) (p : positive) (k : nat) :
  m_ssl t = Some s ->
  0 <= off < data_len msg ->
  ssl_tx s (ssl_tx_calls s) = TxError p k ->
  p <> 1%positive ->
  send_loop (S fuel) msg (data_len msg) off t h =
  send_loop fuel msg (data_len msg) (off + Z.neg p)
            (with_m_ssl
               (Some (wrote (firstn (Nat.min k (Z.to_nat (data_len msg - off)))
                                    (skipn (Z.to_nat off) (data msg))) s)) t)
            (EvSslWrite off (data_len msg - off) (Z.neg p) :: h).
Proof.
  intros Hs Hoff Htx Hp. simpl.
  destruct (off <? data_len msg) eqn:Elt; [|apply Z.ltb_ge in Elt; lia].
  unfold bind at 1.
  rewrite (ssl_write_run msg off (data_len msg - off) t s h Hs) by lia.
  cbv zeta. unfold SSL_write. rewrite Htx. cbn [fst snd].
  destruct (Z.neg p =? -1) eqn:E; [|reflexivity].
  apply Z.eqb_eq in E. exfalso. apply Hp. injection E as E. exact E.
Qed.

End Send.

Section SendClaims.

Context {lib : OpenSSL}.

(** C2. When every write finds room, [send] returns the full serialized
    length of the message, given a loop budget of at least that many
    iterations: its writes form a run in which each call continues at the
    offset the earlier ones have reached and asks for all that is left,
    and the peer has received the whole message, in order. *)
Theorem send_transfers_whole_message
    (fuel : nat) (msg : message) (t : ssl_transport) (s : SSL) (h : history) :
  m_ssl t = Some s ->
  (forall i, (ssl_tx_calls s <= i)%nat -> exists cap, ssl_tx s i = TxAccept cap) ->
  (length (data msg) <= fuel)%nat ->
  exists (s' : SSL) (evs : list event),
    send fuel msg t h =
    Return (data_len msg) (with_m_ssl (Some s') t) (rev evs ++ h) /\
    write_run (data_len msg) 0 evs /\
    ssl_sent s' = ssl_sent s ++ data msg.
Proof.
  intros Hs Htx Hfuel.
  destruct (send_loop_completes msg fuel 0 t s h Hs Htx) as (s' & evs & E & R & W).
  - unfold data_len. lia.
  - unfold data_len. rewrite Z.sub_0_r, Nat2Z.id. exact Hfuel.
  - exists s', evs. split; [|split].
    + unfold send, bind. rewrite E. reflexivity.
    + exact R.
    + exact W.
Qed.

End SendClaims.

(** C5. A write that fails with [-2] does not end [send]. Sending "PING"
    when the first write takes 3 bytes and the second fails with [-2]:
    [send] takes the [-2] as a count, goes back two bytes, writes again
    and returns 8 as if all were well, while the peer has been sent ten
    bytes. *)
Theorem send_negative_write_not_fatal :
  let o := send 8 Demo.ping (Demo.established (Demo.session [] Demo.flaky)) [] in
  returned o = Some 8 /\
  trace_of o = [EvSslWrite 0 8 3; EvSslWrite 3 5 (-2); EvSslWrite 1 7 7] /\
  option_map ssl_sent (m_ssl (state_of o))
  = Some [x00; x00; x00; x00; x00; x04; x50; x49; x4e; x47].
Proof.
  vm_compute. repeat split.
Qed.

Section Init.

Context {core : CoreDecls} {lib : OpenSSL} {net : Network}.

(** Following [init] along each of its paths. *)
Ltac init_unfold :=
  unfold init, ssl_load_cert_bufs, ssl_dump_certs, use_certificate,
    use_RSAPrivateKey, check_private_key, tcp_connect, tcp_bind, tcp_accept,
    on_ssl, sock_set_blocking, call, bind, LOG, emit, return_, pure,
    fault, set_m_ctx, set_m_ssl, set_m_tcp, get; cbn.

Ltac init_split :=
  match goal with
  | |- context [if ?a =? ?b then _ else _] => destruct (a =? b) eqn:?
  | |- context [if ?a <? ?b then _ else _] => destruct (a <? b) eqn:?
  | |- context [if ?a <=? ?b then _ else _] => destruct (a <=? b) eqn:?
  | |- context [SSL_CTX_new ?m] => destruct (SSL_CTX_new m) eqn:?
  | |- context [SSL_new ?c] => destruct (SSL_new c) eqn:?
  | |- context [SSL_CTX_use_certificate ?c ?x] =>
      destruct (SSL_CTX_use_certificate c x) eqn:?
  | |- context [SSL_CTX_use_RSAPrivateKey ?c ?x] =>
      destruct (SSL_CTX_use_RSAPrivateKey c x) eqn:?
  | |- context [SSL_get_peer_certificate ?x] =>
      destruct (SSL_get_peer_certificate x) eqn:?
  end; cbn.

Ltac use_tests :=
  repeat match goal with
         | H : (_ <? _) = _ |- _ => rewrite H
         end.

Ltac init_paths := init_unfold; repeat init_split; use_tests; cbn.

(** Cutting a trace at its [n]-th event. *)
Ltac cut_at n :=
  match goal with
  | |- exists pre e logs, ?tr = pre ++ e :: logs /\ _ =>
      exists (firstn n tr), (nth n tr EvLibraryInit), (skipn (S n) tr);
      cbn; use_tests; repeat split; reflexivity
  end.

Ltac cut_somewhere n :=
  first [ cut_at n
        | lazymatch n with
          | 12%nat => fail
          | _ => cut_somewhere (S n)
          end ].

(** Cutting a trace in front of the switch to non-blocking mode. *)
Ltac switch_at n :=
  match goal with
  | |- exists before rest, ?tr = before ++ rest /\ _ =>
      exists (firstn n tr), (skipn n tr);
      cbn; repeat split;
      right;
      exists (firstn (n - 2) tr), (nth (n - 2) tr EvLibraryInit);
      cbn; eexists; eexists; use_tests; repeat split; reflexivity
  end.

Ltac switch_somewhere n :=
  first [ switch_at n
        | lazymatch n with
          | 12%nat => fail
          | _ => switch_somewhere (S n)
          end ].

(** [init] always ends with a [return]. *)
Lemma init_returns (type : Z) (t : ssl_transport) :
  returned (init type t []) = Some 0 \/ returned (init type t []) = Some (-1).
Proof.
  init_paths; auto.
Qed.

(** Steps with a negative result. Whenever one of the steps connect,
    bind, accept or handshake gives a negative result, whatever the role:
    [init] returns [-1]; that step is the last thing [init] did, apart
    from logging; and the socket mode has not been changed. *)
Theorem init_step_failure_aborts (type : Z) (t : ssl_transport) :
  let o := init type t [] in
  existsb step_failed (trace_of o) = true ->
  returned o = Some (-1) /\
  existsb handshake_done (trace_of o) = false /\
  existsb is_mode_change (trace_of o) = false /\
  exists pre e logs,
    trace_of o = pre ++ e :: logs /\
    step_failed e = true /\
    existsb step_failed pre = false /\
    forallb is_log logs = true.
Proof.
  cbv zeta. init_paths; try discriminate.
  all: intros _; repeat split; try reflexivity.
  all: cut_somewhere 4%nat.
Qed.

(** Where the switch to non-blocking mode stands. The trace of [init]
    is a first part without any change of the blocking mode, which holds
    every connect, bind, accept and handshake, and a rest. Either the rest
    is empty and [init] has returned -1, or [init] has returned 0 and the
    rest is the switch of the socket to non-blocking mode, followed by the
    certificate dump; the switch directly follows a handshake whose result
    was not negative, after steps none of which had a negative result. *)
Theorem init_nonblocking_only_after_handshake (type : Z) (t : ssl_transport) :
  let o := init type t [] in
  exists before rest,
    trace_of o = before ++ rest /\
    existsb is_mode_change before = false /\
    existsb is_stream_step rest = false /\
    ((rest = [] /\ returned o = Some (-1)) \/
     (exists pre hs sock dump,
        before = pre ++ [hs; EvLog "info: SSL connected using cipher (%s)"] /\
        handshake_done hs = true /\
        existsb step_failed pre = false /\
        rest = EvSetBlocking sock false :: dump /\
        existsb is_mode_change dump = false /\
        returned o = Some 0)).
Proof.
  cbv zeta. init_paths.
  all: match goal with
       | |- exists before rest, ?tr = _ /\ _ /\ _ /\
              ((_ /\ Some (-1) = Some (-1)) \/ _) =>
           exists tr, []; rewrite app_nil_r; cbn;
           repeat split; left; split; reflexivity
       | |- _ => switch_somewhere 6%nat
       end.
Qed.

(** The shape of the stream steps. For a client the stream steps of
    [init] are at most a connect followed by the connect-side handshake,
    for a server at most a bind, an accept and then the accept-side
    handshake; the sequence stops early only behind a step with a negative
    result and is empty only when no session was created. With any other
    type [init] returns [-1] and has performed no stream step and no
    handshake, and has created no session. *)
Theorem init_role_selects_path (type : Z) (t : ssl_transport) :
  TPT_CLIENT <> TPT_SERVER ->
  let o := init type t [] in
  (type = TPT_CLIENT -> client_path (trace_of o)) /\
  (type = TPT_SERVER -> server_path (trace_of o)) /\
  (type <> TPT_CLIENT -> type <> TPT_SERVER ->
     returned o = Some (-1) /\
     existsb is_stream_step (trace_of o) = false /\
     existsb session_created (trace_of o) = false).
Proof.
  intros Hroles. cbv zeta.
  unfold client_path, server_path.
  init_paths.
  all: repeat match goal with
              | H : (_ =? _) = true |- _ => apply Z.eqb_eq in H
              | H : (_ =? _) = false |- _ => apply Z.eqb_neq in H
              | H : (_ <? _) = true |- _ => apply Z.ltb_lt in H
              | H : (_ <? _) = false |- _ => apply Z.ltb_ge in H
              end.
  all: repeat split; intros; try reflexivity; try lia; try congruence.
Qed.

End Init.

Section Close.

Context {lib : OpenSSL}.

(** C9. [close] shuts down and frees the session if there is one, frees
    the context if there is one, and closes the stream last; it leaves
    both references cleared and falls through without a result. Called
    again, or from the destructor, it only closes the stream again and
    leaves the transport as it is. *)
Theorem close_idempotent (t : ssl_transport) (h : history) :
  exists (t1 : ssl_transport) (h1 : history),
    close t h = Next tt t1 h1 /\
    rev h1 = rev h
             ++ (if is_some (m_ssl t) then [EvSslShutdown; EvSslFree] else [])
             ++ (if is_some (m_ctx t) then [EvCtxFree] else [])
             ++ [EvTcpClose] /\
    m_ssl t1 = None /\
    m_ctx t1 = None /\
    close t1 h1 = Next tt t1 (EvTcpClose :: h1) /\
    ssl_transport_delete t1 h1 = Next tt t1 (EvTcpClose :: h1).
Proof.
  unfold ssl_transport_delete, close, bind, get, emit, pure,
    set_m_ssl, set_m_ctx, set_m_tcp.
  destruct t as [c s tcp host port].
  destruct s as [s|], c as [c|]; cbn;
    eexists; eexists; (split; [reflexivity|]); cbn;
    rewrite <- ?app_assoc; cbn; auto.
Qed.

End Close.

Section Identity.

Context {lib : OpenSSL}.

(** C10. [ssl_load_cert_bufs] gives the same result and leaves the same
    context whatever lengths it is passed, and even for buffers that only
    agree up to their first NUL: the lengths are never read, the buffers
    are read as C strings. *)
Theorem ssl_load_cert_bufs_ignores_lengths
    (ctx : SSL_CTX) (h : history)
    (crt_buf key_buf : buffer) (crt_len key_len crt_len' key_len' : Z) :
  ssl_load_cert_bufs crt_buf crt_len key_buf key_len ctx h
  = ssl_load_cert_bufs crt_buf crt_len' key_buf key_len' ctx h /\
  (forall crt_buf' key_buf' : buffer,
     c_str crt_buf' = c_str crt_buf ->
     c_str key_buf' = c_str key_buf ->
     ssl_load_cert_bufs crt_buf' crt_len' key_buf' key_len' ctx h
     = ssl_load_cert_bufs crt_buf crt_len key_buf key_len ctx h).
Proof.
  split; [reflexivity|].
  intros crt_buf' key_buf' Hc Hk.
  unfold ssl_load_cert_bufs, BIO_new_mem_buf. cbn.
  rewrite Hc, Hk. reflexivity.
Qed.

End Identity.

(** ** The claims at concrete inputs *)

Lemma recv_closed_or_empty_witness :
  returned (@recv Demo.core _
              (Demo.empty_msg, Demo.established (Demo.session [RxClosed] Demo.flaky)) [])
  = Some (-2) /\
  returned (@recv Demo.core _
              (Demo.empty_msg, Demo.established Demo.quiet) [])
  = Some (-3).
Proof.
  split.
  - apply (@recv_closed_or_empty Demo.core _ Demo.empty_msg
             (Demo.established (Demo.session [RxClosed] Demo.flaky))
             (Demo.session [RxClosed] Demo.flaky) []);
      reflexivity.
  - apply (@recv_closed_or_empty Demo.core _ Demo.empty_msg
             (Demo.established Demo.quiet) Demo.quiet []);
      [reflexivity | vm_compute; reflexivity].
Defined.

Lemma recv_resizes_before_body_read_witness :
  exists r2 got t',
    @recv Demo.core _
      ({| header := [x00; x00; x00; x00]; body := [x01; x02; x03; x04; x05;
                                                   x06; x07; x08; x09; x0a] |},
       Demo.established (Demo.session Demo.split_body Demo.flaky)) []
    = Return r2
        (store AtBody got
           (resize 8 {| header := [x00; x00; x00; x08];
                        body := [x01; x02; x03; x04; x05;
                                 x06; x07; x08; x09; x0a] |}), t')
        [EvSslRead AtBody 8 r2; EvResize 8; EvSslRead AtData 4 4].
Proof.
  destruct (@recv_resizes_before_body_read Demo.core _ Demo.empty_msg
              (Demo.established (Demo.session Demo.split_body Demo.flaky))
              (Demo.session Demo.split_body Demo.flaky) [])
    as (r2 & got & H); [reflexivity | vm_compute; reflexivity |].
  destruct (H [x01; x02; x03; x04; x05; x06; x07; x08; x09; x0a])
    as (t' & E & _).
  exists r2, got, t'. exact E.
Defined.

Lemma recv_full_header_then_body_witness :
  @recv Demo.core _
    (Demo.empty_msg, Demo.established (Demo.session Demo.split_body Demo.flaky)) []
  = Return 3
      ({| header := [x00; x00; x00; x08];
          body := [x61; x62; x63; x00; x00; x00; x00; x00] |},
       with_m_ssl (Some (Demo.session [] Demo.flaky))
                  (Demo.established (Demo.session Demo.split_body Demo.flaky)))
      [EvSslRead AtBody 8 3; EvResize 8; EvSslRead AtData 4 4].
Proof.
  apply (@recv_full_header_then_body Demo.core _ Demo.empty_msg
           (Demo.established (Demo.session Demo.split_body Demo.flaky))
           (Demo.session Demo.split_body Demo.flaky) []);
    [reflexivity | reflexivity | simpl; lia | reflexivity].
Defined.

(** C4 as the spec words it fails: the header announces 8 body bytes,
    the one read that [recv] makes for the body obtains the 3 bytes that
    have arrived, and [recv] returns 3 with the body unfinished. *)
Lemma recv_short_body_counterexample :
  let o := @recv Demo.core _
             (Demo.empty_msg,
              Demo.established (Demo.session Demo.split_body Demo.flaky)) [] in
  trace_of o = [EvSslRead AtData 4 4; EvResize 8; EvSslRead AtBody 8 3] /\
  returned o = Some 3 /\
  @body_len Demo.core (fst (state_of o)) = 8%nat /\
  ~ (exists st h, o = Return (Z.of_nat (@body_len Demo.core (fst st))) st h).
Proof.
  vm_compute. repeat split.
  intros (st & h & E). injection E as E1 E2 E3. subst st.
  vm_compute in E1. discriminate E1.
Defined.

Lemma send_transfers_whole_message_witness :
  exists (s' : SSL) (evs : list event),
    send 8 Demo.ping (Demo.established (Demo.session [] (fun _ => TxAccept 3))) []
    = Return 8
        (with_m_ssl (Some s')
           (Demo.established (Demo.session [] (fun _ => TxAccept 3))))
        (rev evs ++ []) /\
    write_run 8 0 evs /\
    ssl_sent s' = [] ++ data Demo.ping.
Proof.
  apply (@send_transfers_whole_message _ 8 Demo.ping
           (Demo.established (Demo.session [] (fun _ => TxAccept 3)))
           (Demo.session [] (fun _ => TxAccept 3)) []).
  - reflexivity.
  - intros i _. exists 3%positive. reflexivity.
  - simpl. lia.
Defined.

(** A client whose TCP connect gives socket 5 and whose handshake fails. *)
Lemma init_step_failure_aborts_witness :
  let o := @init Demo.core (Demo.lib true (Some Demo.quiet) (-1) 1)
                 (Demo.net 5 0 6) 0
                 (@ssl_transport_new _ (Demo.net 5 0 6)) [] in
  existsb step_failed (trace_of o) = true /\ returned o = Some (-1).
Proof.
  split.
  - vm_compute. reflexivity.
  - apply (@init_step_failure_aborts Demo.core
             (Demo.lib true (Some Demo.quiet) (-1) 1) (Demo.net 5 0 6) 0
             (@ssl_transport_new _ (Demo.net 5 0 6))).
    vm_compute. reflexivity.
Defined.

Lemma init_role_selects_path_witness :
  client_path
    (trace_of (@init Demo.core (Demo.lib true (Some Demo.quiet) 1 1)
                     (Demo.net 5 0 6) 0
                     (@ssl_transport_new _ (Demo.net 5 0 6)) [])) /\
  server_path
    (trace_of (@init Demo.core (Demo.lib true (Some Demo.quiet) 1 1)
                     (Demo.net 5 0 6) 1
                     (@ssl_transport_new _ (Demo.net 5 0 6)) [])).
Proof.
  split.
  - apply (@init_role_selects_path Demo.core
             (Demo.lib true (Some Demo.quiet) 1 1) (Demo.net 5 0 6) 0
             (@ssl_transport_new _ (Demo.net 5 0 6)));
      [discriminate | reflexivity].
  - apply (@init_role_selects_path Demo.core
             (Demo.lib true (Some Demo.quiet) 1 1) (Demo.net 5 0 6) 1
             (@ssl_transport_new _ (Demo.net 5 0 6)));
      [discriminate | reflexivity].
Defined.

(** The embedded certificate buffer holds a byte behind its NUL; a buffer
    without it and other lengths load the same identity. *)
Lemma ssl_load_cert_bufs_ignores_lengths_witness :
  @ssl_load_cert_bufs (Demo.lib true None 1 1)
    [x43; x45; x52; x54; x00] 5 [x43; x45; x52; x54; x00; x4b] 6
    (Demo.mkCtx TLSv1_client_method None None) []
  = @ssl_load_cert_bufs (Demo.lib true None 1 1)
      (@_crtbuf Demo.core) 0 (@_keybuf Demo.core) 0
      (Demo.mkCtx TLSv1_client_method None None) [].
Proof.
  apply (@ssl_load_cert_bufs_ignores_lengths (Demo.lib true None 1 1)
           (Demo.mkCtx TLSv1_client_method None None) []
           (@_crtbuf Demo.core) (@_keybuf Demo.core) 0 0 5 6);
    reflexivity.
Defined.

(** A header that arrives in two records: the header read obtains its
    first two bytes, and [recv] goes on with a header whose other two
    bytes are the ones the message held before. *)
Example recv_short_header_run :
  let o := @recv Demo.core _
             (Demo.ping,
              Demo.established
                (Demo.session [RxRecord x00 [x00]; RxRecord x00 [x08]] Demo.flaky))
             [] in
  trace_of o = [EvSslRead AtData 4 2; EvResize 4; EvSslRead AtBody 4 2] /\
  header (fst (state_of o)) = [x00; x00; x00; x04] /\
  body (fst (state_of o)) = [x00; x08; x4e; x47].
Proof.
  vm_compute. repeat split.
Qed.

(** ** Runs of [init] *)

(** A client whose steps all succeed. *)
Example init_client_run :
  let o := @init Demo.core (Demo.lib true (Some Demo.quiet) 1 1)
                 (Demo.net 5 0 6) 0
                 (@ssl_transport_new _ (Demo.net 5 0 6)) [] in
  returned o = Some 0 /\
  trace_of o =
  [EvLibraryInit; EvCtxNew TLSv1_client_method true;
   EvLog "info: SSL certificates verified"; EvSslNew true;
   EvConnect "127.0.0.1" 443 5; EvSetFd 5; EvSslConnect 1;
   EvLog "info: SSL connected using cipher (%s)";
   EvSetBlocking 5 false;
   EvLog "[subject] %s"; EvLog "[issuer] %s"; EvX509Free].
Proof.
  vm_compute. split; reflexivity.
Qed.

(** A server whose steps all succeed. *)
Example init_server_run :
  let o := @init Demo.core (Demo.lib true (Some Demo.quiet) 1 1)
                 (Demo.net 5 0 6) 1
                 (@ssl_transport_new _ (Demo.net 5 0 6)) [] in
  returned o = Some 0 /\
  trace_of o =
  [EvLibraryInit; EvCtxNew TLSv1_server_method true;
   EvLog "info: SSL certificates verified"; EvSslNew true;
   EvLog "info: c2 server at %s:%d"; EvBind 443 0;
   EvLog "info: waiting for client..."; EvAccept 6;
   EvSetFd 6; EvSslAccept 1;
   EvLog "info: SSL connected using cipher (%s)";
   EvSetBlocking 6 false;
   EvLog "[subject] %s"; EvLog "[issuer] %s"; EvX509Free].
Proof.
  vm_compute. split; reflexivity.
Qed.

(** The test [init] applies to a handshake is [< 0]: with a handshake
    that gives 0, [init] goes on and returns 0. *)
Example init_handshake_result_zero :
  let o := @init Demo.core (Demo.lib true (Some Demo.quiet) 0 0)
                 (Demo.net 5 0 6) 0
                 (@ssl_transport_new _ (Demo.net 5 0 6)) [] in
  returned o = Some 0 /\
  In (EvSslConnect 0) (trace_of o) /\
  In (EvSetBlocking 5 false) (trace_of o).
Proof.
  vm_compute. intuition.
Qed.

(** A transport that has been set up and closed, and closed again. *)
Example close_twice_run :
  let t := Demo.established Demo.quiet in
  exists t1 h1,
    close t [] = Next tt t1 h1 /\
    rev h1 = [EvSslShutdown; EvSslFree; EvCtxFree; EvTcpClose] /\
    trace_of (close t1 h1)
    = [EvSslShutdown; EvSslFree; EvCtxFree; EvTcpClose; EvTcpClose] /\
    state_of (close t1 h1) = t1.
Proof.
  eexists. eexists. split; [reflexivity|]. vm_compute. auto.
Qed.

(** * Further properties of ssl.cc *)

(** ** Collaborators for the file loader and the options *)

Module DemoRest.

Definition decls : SslDecls :=
  {| SSL_OPT_HOST := 0; SSL_OPT_PORT := 1 |}.

(** The digits a text starts with, as a number. *)
Fixpoint leading_number (acc : Z) (text : string) : Z :=
  match text with
  | String.EmptyString => acc
  | String.String c rest =>
      let d := Z.of_nat (Ascii.nat_of_ascii c) - 48 in
      if (0 <=? d) && (d <=? 9) then leading_number (acc * 10 + d) rest
      else acc
  end.

Definition libc : Libc := {| atoi := leading_number 0 |}.

(** Two files: "id.pem" holds the text CERT, every other file is empty.
    Loading a file is parsing what it holds and installing the result. *)
Definition contents (file : string) : buffer :=
  if String.eqb file "id.pem" then [x43; x45; x52; x54] else [].

Definition files (lib : OpenSSL) : @OpenSSLFiles lib :=
  {| SSL_FILETYPE_PEM := 1;
     SSL_CTX_use_certificate_file := fun c file _ =>
       SSL_CTX_use_certificate c (PEM_read_bio_X509 (contents file));
     SSL_CTX_use_PrivateKey_file := fun c file _ =>
       SSL_CTX_use_RSAPrivateKey c (PEM_read_bio_RSAPrivateKey (contents file)) |}.

Definition blank : Demo.ctx := Demo.mkCtx TLSv1_client_method None None.

(** Transports of one library, each established with its own session. *)
Definition holding (s : SSL) : @ssl_transport (Demo.lib true None 1 1) :=
  @mkTransport (Demo.lib true None 1 1) (Some blank) (Some s)
    {| tcp_open := [5] |} "127.0.0.1" 443.

Definition ping_record : list rx_item :=
  [RxRecord x00 [x00; x00; x04; x50; x49; x4e; x47]; RxClosed].

(** Writes of which the first takes 3 bytes and the others fail with -1
    after 2 bytes have gone out. *)
Definition failing (i : nat) : tx_item :=
  match i with
  | 0%nat => TxAccept 3
  | _ => TxError 1 2
  end.

End DemoRest.

Section IdentityMore.

Context {lib : OpenSSL} {files : OpenSSLFiles}.

(** [ssl_load_cert_bufs] returns 0 or -1, and 0 exactly when the context
    took the certificate, then took the key, and then passes the key
    check; the context is then the one with both installed, and nothing
    has been logged. *)
Theorem ssl_load_cert_bufs_success_iff
    (ctx : SSL_CTX) (h : history)
    (crt_buf key_buf : buffer) (crt_len key_len : Z) :
  let u1 := SSL_CTX_use_certificate ctx (PEM_read_bio_X509 (c_str crt_buf)) in
  let u2 := SSL_CTX_use_RSAPrivateKey (snd u1)
              (PEM_read_bio_RSAPrivateKey (c_str key_buf)) in
  let o := ssl_load_cert_bufs crt_buf crt_len key_buf key_len ctx h in
  (returned o = Some 0 \/ returned o = Some (-1)) /\
  (returned o = Some 0 <->
   0 < fst u1 /\ 0 < fst u2 /\ SSL_CTX_check_private_key (snd u2) <> 0) /\
  (returned o = Some 0 -> state_of o = snd u2 /\ history_of o = h).
Proof.
  cbv zeta.
  unfold ssl_load_cert_bufs, BIO_new_mem_buf, bind, use_certificate,
    use_RSAPrivateKey, check_private_key, LOG, emit, return_. cbn.
  destruct (SSL_CTX_use_certificate ctx _) as [r1 c1]. cbn.
  destruct (r1 <=? 0) eqn:E1; cbn.
  { apply Z.leb_le in E1. repeat split; auto; try discriminate. lia. }
  apply Z.leb_gt in E1.
  destruct (SSL_CTX_use_RSAPrivateKey c1 _) as [r2 c2]. cbn.
  destruct (r2 <=? 0) eqn:E2; cbn.
  { apply Z.leb_le in E2. repeat split; auto; try discriminate. lia. }
  apply Z.leb_gt in E2.
  destruct (SSL_CTX_check_private_key c2 =? 0) eqn:E3; cbn.
  { apply Z.eqb_eq in E3. repeat split; auto; try discriminate.
    intros (_ & _ & H). contradiction. }
  apply Z.eqb_neq in E3. repeat split; auto.
Qed.

(** A failed [ssl_load_cert_bufs] rolls nothing back. A certificate the
    context does not take ends the load before the key is offered; a key
    the context does not take, or one that does not fit, leaves the
    certificate installed (and, for the misfit, the key as well). Each
    failure writes one line naming its stage. *)
Theorem ssl_load_cert_bufs_failure
    (ctx : SSL_CTX) (h : history)
    (crt_buf key_buf : buffer) (crt_len key_len : Z) :
  let u1 := SSL_CTX_use_certificate ctx (PEM_read_bio_X509 (c_str crt_buf)) in
  let u2 := SSL_CTX_use_RSAPrivateKey (snd u1)
              (PEM_read_bio_RSAPrivateKey (c_str key_buf)) in
  let o := ssl_load_cert_bufs crt_buf crt_len key_buf key_len ctx h in
  (fst u1 <= 0 ->
   o = Return (-1) (snd u1)
         (EvLog "error: openssl failed to load certificate buffer" :: h)) /\
  (0 < fst u1 -> fst u2 <= 0 ->
   o = Return (-1) (snd u2)
         (EvLog "error: openssl failed to load key buffer" :: h)) /\
  (0 < fst u1 -> 0 < fst u2 -> SSL_CTX_check_private_key (snd u2) = 0 ->
   o = Return (-1) (snd u2)
         (EvLog "error: private key does not match public certificate" :: h)).
Proof.
  cbv zeta.
  unfold ssl_load_cert_bufs, BIO_new_mem_buf, bind, use_certificate,
    use_RSAPrivateKey, check_private_key, LOG, emit, return_. cbn.
  destruct (SSL_CTX_use_certificate ctx _) as [r1 c1]. cbn.
  destruct (r1 <=? 0) eqn:E1; cbn.
  { apply Z.leb_le in E1. repeat split; intros; try lia; try reflexivity. }
  apply Z.leb_gt in E1.
  destruct (SSL_CTX_use_RSAPrivateKey c1 _) as [r2 c2]. cbn.
  destruct (r2 <=? 0) eqn:E2; cbn.
  { apply Z.leb_le in E2. repeat split; intros; try lia; try reflexivity. }
  apply Z.leb_gt in E2.
  destruct (SSL_CTX_check_private_key c2 =? 0) eqn:E3; cbn.
  { repeat split; intros; try lia; try reflexivity. }
  apply Z.eqb_neq in E3. repeat split; intros; try lia; try contradiction.
Qed.

(** [ssl_load_certs] returns 0 or -1, and 0 exactly when the certificate
    file loads, then the key file loads, and the context then passes the
    key check; the key file is not loaded when the certificate file has
    failed. *)
Theorem ssl_load_certs_success_iff
    (ctx : SSL_CTX) (h : history) (cert_file key_file : string) :
  let u1 := SSL_CTX_use_certificate_file ctx cert_file SSL_FILETYPE_PEM in
  let u2 := SSL_CTX_use_PrivateKey_file (snd u1) key_file SSL_FILETYPE_PEM in
  let o := ssl_load_certs cert_file key_file ctx h in
  (returned o = Some 0 \/ returned o = Some (-1)) /\
  (returned o = Some 0 <->
   0 < fst u1 /\ 0 < fst u2 /\ SSL_CTX_check_private_key (snd u2) <> 0) /\
  (returned o = Some 0 -> state_of o = snd u2 /\ history_of o = h) /\
  (fst u1 <= 0 -> state_of o = snd u1).
Proof.
  cbv zeta.
  unfold ssl_load_certs, bind, use_certificate_file, use_PrivateKey_file,
    check_private_key, LOG, emit, return_. cbn.
  destruct (SSL_CTX_use_certificate_file ctx _ _) as [r1 c1]. cbn.
  destruct (r1 <=? 0) eqn:E1; cbn.
  { apply Z.leb_le in E1. repeat split; auto; try discriminate. lia. }
  apply Z.leb_gt in E1.
  destruct (SSL_CTX_use_PrivateKey_file c1 _ _) as [r2 c2]. cbn.
  destruct (r2 <=? 0) eqn:E2; cbn.
  { apply Z.leb_le in E2. repeat split; auto; try discriminate; lia. }
  apply Z.leb_gt in E2.
  destruct (SSL_CTX_check_private_key c2 =? 0) eqn:E3; cbn.
  { apply Z.eqb_eq in E3. repeat split; auto; try discriminate; try lia.
    all: try (intros (_ & _ & H); contradiction). }
  apply Z.eqb_neq in E3. repeat split; auto; lia.
Qed.

(** The two loaders agree. When loading a PEM file is parsing what the
    file holds and installing the result, [ssl_load_certs] on two files
    and [ssl_load_cert_bufs] on buffers with the same text return the same
    result and leave the same context. *)
Theorem ssl_load_certs_agrees_with_bufs
    (contents : string -> buffer)
    (ctx : SSL_CTX) (h : history) (cert_file key_file : string)
    (crt_buf key_buf : buffer) (crt_len key_len : Z) :
  (forall c file,
     SSL_CTX_use_certificate_file c file SSL_FILETYPE_PEM
     = SSL_CTX_use_certificate c (PEM_read_bio_X509 (contents file))) ->
  (forall c file,
     SSL_CTX_use_PrivateKey_file c file SSL_FILETYPE_PEM
     = SSL_CTX_use_RSAPrivateKey c (PEM_read_bio_RSAPrivateKey (contents file))) ->
  c_str crt_buf = contents cert_file ->
  c_str key_buf = contents key_file ->
  returned (ssl_load_certs cert_file key_file ctx h)
  = returned (ssl_load_cert_bufs crt_buf crt_len key_buf key_len ctx h) /\
  state_of (ssl_load_certs cert_file key_file ctx h)
  = state_of (ssl_load_cert_bufs crt_buf crt_len key_buf key_len ctx h).
Proof.
  intros Hc Hk Ec Ek.
  unfold ssl_load_certs, ssl_load_cert_bufs, BIO_new_mem_buf, bind,
    use_certificate_file, use_PrivateKey_file, use_certificate,
    use_RSAPrivateKey, check_private_key, LOG, emit, return_. cbn.
  rewrite Hc, Ec.
  destruct (SSL_CTX_use_certificate ctx _) as [r1 c1]. cbn.
  destruct (r1 <=? 0); cbn; [auto|].
  rewrite Hk, Ek.
  destruct (SSL_CTX_use_RSAPrivateKey c1 _) as [r2 c2]. cbn.
  destruct (r2 <=? 0); cbn; [auto|].
  destruct (SSL_CTX_check_private_key c2 =? 0); cbn; auto.
Qed.

End IdentityMore.

Lemma ssl_load_certs_agrees_with_bufs_witness :
  returned (@ssl_load_certs _ (DemoRest.files (Demo.lib true None 1 1))
              "id.pem" "id.pem" DemoRest.blank [])
  = Some 0 /\
  returned (@ssl_load_certs _ (DemoRest.files (Demo.lib true None 1 1))
              "id.pem" "none.pem" DemoRest.blank [])
  = Some (-1).
Proof.
  split.
  - rewrite (proj1 (@ssl_load_certs_agrees_with_bufs
               (Demo.lib true None 1 1) (DemoRest.files _) DemoRest.contents
               DemoRest.blank [] "id.pem" "id.pem"
               [x43; x45; x52; x54; x00] [x43; x45; x52; x54; x00; x4b] 7 9
               (fun _ _ => eq_refl) (fun _ _ => eq_refl) eq_refl eq_refl)).
    reflexivity.
  - rewrite (proj1 (@ssl_load_certs_agrees_with_bufs
               (Demo.lib true None 1 1) (DemoRest.files _) DemoRest.contents
               DemoRest.blank [] "id.pem" "none.pem"
               [x43; x45; x52; x54; x00] [x00] 7 9
               (fun _ _ => eq_refl) (fun _ _ => eq_refl) eq_refl eq_refl)).
    reflexivity.
Defined.

(** ** Options *)

Section OptionsMore.

Context {lib : OpenSSL} {decls : SslDecls} {libc : Libc}.

(** [setopt] only ever changes the host or the port. Setting an option
    twice keeps the later value, an option that is neither tag changes
    nothing, and host and port can be set in either order: the result is
    the transport with the host given and the port [atoi] reads. *)
Theorem setopt_last_wins_and_commutes
    (t : ssl_transport) (h : history) (opt : Z) (v1 v2 host port : string) :
  SSL_OPT_HOST <> SSL_OPT_PORT ->
  (setopt opt v1 ;; setopt opt v2) t h = setopt opt v2 t h /\
  (opt <> SSL_OPT_HOST -> opt <> SSL_OPT_PORT ->
   setopt opt v1 t h = Next tt t h) /\
  (setopt SSL_OPT_HOST host ;; setopt SSL_OPT_PORT port) t h
  = (setopt SSL_OPT_PORT port ;; setopt SSL_OPT_HOST host) t h /\
  (setopt SSL_OPT_HOST host ;; setopt SSL_OPT_PORT port) t h
  = Next tt {| m_ctx := m_ctx t; m_ssl := m_ssl t; m_tcp := m_tcp t;
               m_opt_host := host; m_opt_port := atoi port |} h.
Proof.
  intros Hne.
  assert (Hhp : (SSL_OPT_HOST =? SSL_OPT_PORT) = false) by (apply Z.eqb_neq; exact Hne).
  assert (Hph : (SSL_OPT_PORT =? SSL_OPT_HOST) = false)
    by (apply Z.eqb_neq; intros E; apply Hne; symmetry; exact E).
  unfold setopt, bind, pure. rewrite !Z.eqb_refl, Hph.
  repeat split.
  - destruct (opt =? SSL_OPT_HOST); [reflexivity|].
    destruct (opt =? SSL_OPT_PORT); reflexivity.
  - intros H1 H2.
    apply Z.eqb_neq in H1. apply Z.eqb_neq in H2. rewrite H1, H2.
    reflexivity.
Qed.

End OptionsMore.

Lemma setopt_last_wins_and_commutes_witness :
  state_of ((@setopt _ DemoRest.decls DemoRest.libc 0 "10.0.0.7" ;;
             @setopt _ DemoRest.decls DemoRest.libc 1 "8443")
              (Demo.established Demo.quiet) [])
  = @mkTransport (Demo.lib true (Some Demo.quiet) 1 1)
      (Some (Demo.mkCtx TLSv1_client_method None None))
      (Some Demo.quiet) {| tcp_open := [5] |} "10.0.0.7" 8443.
Proof.
  exact (f_equal state_of
           (proj2 (proj2 (proj2
              (@setopt_last_wins_and_commutes _ DemoRest.decls DemoRest.libc
                 (Demo.established Demo.quiet) [] 0 "" "" "10.0.0.7" "8443"
                 ltac:(discriminate)))))).
Defined.

(** ** More about [init] *)

(** Following [init] along each of its paths. *)
Ltac paths_unfold :=
  unfold init, ssl_load_cert_bufs, ssl_dump_certs, use_certificate,
    use_RSAPrivateKey, check_private_key, tcp_connect, tcp_bind, tcp_accept,
    on_ssl, sock_set_blocking, call, bind, LOG, emit, return_, pure,
    fault, set_m_ctx, set_m_ssl, set_m_tcp, get; cbn.

Ltac paths_split :=
  match goal with
  | |- context [if ?a =? ?b then _ else _] => destruct (a =? b) eqn:?
  | |- context [if ?a <? ?b then _ else _] => destruct (a <? b) eqn:?
  | |- context [if ?a <=? ?b then _ else _] => destruct (a <=? b) eqn:?
  | |- context [SSL_CTX_new ?m] => destruct (SSL_CTX_new m) eqn:?
  | |- context [SSL_new ?c] => destruct (SSL_new c) eqn:?
  | |- context [SSL_CTX_use_certificate ?c ?x] =>
      destruct (SSL_CTX_use_certificate c x) eqn:?
  | |- context [SSL_CTX_use_RSAPrivateKey ?c ?x] =>
      destruct (SSL_CTX_use_RSAPrivateKey c x) eqn:?
  | |- context [SSL_get_peer_certificate ?x] =>
      destruct (SSL_get_peer_certificate x) eqn:?
  end; cbn.

Ltac paths_tests :=
  repeat match goal with
         | H : (_ <? _) = _ |- _ => rewrite H
         end.

Ltac paths := paths_unfold; repeat paths_split; paths_tests; cbn.

Ltac tests_to_facts :=
  repeat match goal with
         | H : (_ =? _) = true |- _ => apply Z.eqb_eq in H
         | H : (_ =? _) = false |- _ => apply Z.eqb_neq in H
         | H : (_ <? _) = true |- _ => apply Z.ltb_lt in H
         | H : (_ <? _) = false |- _ => apply Z.ltb_ge in H
         end.

Section InitMore.

Context {core : CoreDecls} {lib : OpenSSL} {net : Network}.

(** [init] connects to, or binds on, the host and port the transport
    holds and no other, and leaves both as they are. A client for which
    the session gets created does connect to them, a server does bind on
    the port. *)
Theorem init_uses_options (type : Z) (t : ssl_transport) :
  let o := init type t [] in
  Forall (aims_at (m_opt_host t) (m_opt_port t)) (trace_of o) /\
  m_opt_host (state_of o) = m_opt_host t /\
  m_opt_port (state_of o) = m_opt_port t /\
  (type = TPT_CLIENT ->
   existsb session_created (trace_of o) = true ->
   In (EvConnect (m_opt_host t) (m_opt_port t)
                 (net_connect (m_opt_host t) (m_opt_port t)))
      (trace_of o)) /\
  (type <> TPT_CLIENT -> type = TPT_SERVER ->
   existsb session_created (trace_of o) = true ->
   In (EvBind (m_opt_port t) (net_bind (m_opt_port t))) (trace_of o)).
Proof.
  cbv zeta. paths.
  all: tests_to_facts.
  all: repeat split; intros;
       try congruence; try discriminate;
       try (repeat constructor; fail);
       try (cbn; tauto).
Qed.

(** When [init] returns 0 the transport holds a context and a session,
    the session is bound to a socket that is not negative and that the
    stream holds open, and it is this socket that was switched to
    non-blocking mode. *)
Theorem init_success_state (type : Z) (t : ssl_transport) :
  let o := init type t [] in
  returned o = Some 0 ->
  exists ctx s sock,
    m_ctx (state_of o) = Some ctx /\
    m_ssl (state_of o) = Some s /\
    ssl_fd s = Some sock /\
    0 <= sock /\
    In sock (tcp_open (m_tcp (state_of o))) /\
    In (EvSetBlocking sock false) (trace_of o).
Proof.
  cbv zeta. paths; try discriminate.
  all: intros _; unfold tcp_opened; paths_tests; tests_to_facts.
  all: eexists; eexists; eexists;
       repeat split; try reflexivity; try assumption; cbn; tauto.
Qed.

(** [init] gives nothing back, on no path: its trace holds no shutdown,
    no free and no close of the stream. A context it has created is still
    held by the transport when it returns, and so is a session it has
    created, also when it returns -1. *)
Theorem init_never_releases (type : Z) (t : ssl_transport) :
  let o := init type t [] in
  existsb is_release (trace_of o) = false /\
  (existsb ctx_created (trace_of o) = true -> m_ctx (state_of o) <> None) /\
  (existsb session_created (trace_of o) = true -> m_ssl (state_of o) <> None).
Proof.
  cbv zeta. paths.
  all: repeat split; intros; try reflexivity; try discriminate.
Qed.

End InitMore.

Lemma init_success_state_witness :
  exists ctx s sock,
    m_ctx (state_of (@init Demo.core (Demo.lib true (Some Demo.quiet) 1 1)
                           (Demo.net 5 0 6) 1
                           (@ssl_transport_new _ (Demo.net 5 0 6)) []))
    = Some ctx /\
    m_ssl (state_of (@init Demo.core (Demo.lib true (Some Demo.quiet) 1 1)
                           (Demo.net 5 0 6) 1
                           (@ssl_transport_new _ (Demo.net 5 0 6)) []))
    = Some s /\
    ssl_fd s = Some sock /\
    0 <= sock /\
    In sock (tcp_open (m_tcp
      (state_of (@init Demo.core (Demo.lib true (Some Demo.quiet) 1 1)
                       (Demo.net 5 0 6) 1
                       (@ssl_transport_new _ (Demo.net 5 0 6)) [])))) /\
    In (EvSetBlocking sock false)
       (trace_of (@init Demo.core (Demo.lib true (Some Demo.quiet) 1 1)
                        (Demo.net 5 0 6) 1
                        (@ssl_transport_new _ (Demo.net 5 0 6)) [])).
Proof.
  apply (@init_success_state Demo.core (Demo.lib true (Some Demo.quiet) 1 1)
           (Demo.net 5 0 6) 1 (@ssl_transport_new _ (Demo.net 5 0 6))).
  reflexivity.
Defined.

Section InitAndClose.

Context {core : CoreDecls} {lib : OpenSSL} {net : Network}.

(** On a transport that holds neither context nor session, [init]
    followed by [close] balances: whatever path [init] took, [close] frees
    one context for each context created and one session for each session
    created, and leaves the transport holding neither. *)
Theorem init_then_close_balanced (type : Z) (t : ssl_transport) :
  m_ctx t = None ->
  m_ssl t = None ->
  let o := init type t [] in
  let o' := close (state_of o) (history_of o) in
  m_ctx (state_of o') = None /\
  m_ssl (state_of o') = None /\
  length (filter is_ctx_free (trace_of o'))
  = length (filter ctx_created (trace_of o')) /\
  length (filter is_ssl_free (trace_of o'))
  = length (filter session_created (trace_of o')).
Proof.
  destruct t as [c s tcp host port]. cbn. intros -> ->.
  unfold close. paths; repeat split; reflexivity.
Qed.

(** A transport that already holds a context loses it to a second
    [init]: when [init] creates a context it frees none, the transport
    then holds a context, and the [close] that follows frees one context
    only, though one was held before and another has been created. *)
Theorem init_again_drops_context (type : Z) (t : ssl_transport) (old : SSL_CTX) :
  m_ctx t = Some old ->
  let o := init type t [] in
  existsb ctx_created (trace_of o) = true ->
  (exists ctx, m_ctx (state_of o) = Some ctx) /\
  existsb is_ctx_free (trace_of o) = false /\
  length (filter is_ctx_free
            (trace_of (close (state_of o) (history_of o)))) = 1%nat.
Proof.
  destruct t as [c s tcp host port]. cbn. intros ->.
  unfold close. destruct s as [s|]; paths; try discriminate.
  all: intros _; repeat split; try reflexivity; eexists; reflexivity.
Qed.

End InitAndClose.

Lemma init_then_close_balanced_witness :
  let o := @init Demo.core (Demo.lib true (Some Demo.quiet) (-1) 1)
                 (Demo.net 5 0 6) 0
                 (@ssl_transport_new _ (Demo.net 5 0 6)) [] in
  let o' := close (state_of o) (history_of o) in
  returned o = Some (-1) /\
  length (filter is_ssl_free (trace_of o'))
  = length (filter session_created (trace_of o')).
Proof.
  split; [reflexivity|].
  apply (@init_then_close_balanced Demo.core
           (Demo.lib true (Some Demo.quiet) (-1) 1) (Demo.net 5 0 6) 0
           (@ssl_transport_new _ (Demo.net 5 0 6)));
    reflexivity.
Defined.

Lemma init_again_drops_context_witness :
  let o := @init Demo.core (Demo.lib true (Some Demo.quiet) 1 1)
                 (Demo.net 5 0 6) 0 (Demo.established Demo.quiet) [] in
  (exists ctx, m_ctx (state_of o) = Some ctx) /\
  existsb is_ctx_free (trace_of o) = false /\
  length (filter is_ctx_free
            (trace_of (close (state_of o) (history_of o)))) = 1%nat.
Proof.
  apply (@init_again_drops_context Demo.core
           (Demo.lib true (Some Demo.quiet) 1 1) (Demo.net 5 0 6) 0
           (Demo.established Demo.quiet)
           (Demo.mkCtx TLSv1_client_method None None));
    reflexivity.
Defined.

(** ** More about [send] *)

Lemma firstn_add_skipn (a b : nat) (l : buffer) :
  firstn (a + b) l = firstn a l ++ firstn b (skipn a l).
Proof.
  revert l. induction a as [|a IH]; intros l; [reflexivity|].
  destruct l as [|x l]; simpl.
  - rewrite firstn_nil. reflexivity.
  - rewrite IH. reflexivity.
Qed.

Lemma with_m_ssl_same {lib : OpenSSL} (t : ssl_transport) (s : SSL) :
  m_ssl t = Some s -> with_m_ssl (Some s) t = t.
Proof.
  destruct t; unfold with_m_ssl; simpl. intros ->. reflexivity.
Qed.

Section SendMore.

Context {lib : OpenSSL}.

(** One iteration of the loop of [send] from inside the message. *)
Lemma send_loop_step (msg : message) (fuel : nat) (off : Z)
      (t : ssl_transport) (s : SSL) (h : history) :
  m_ssl t = Some s ->
  0 <= off < data_len msg ->
  let w := SSL_write s (skipn (Z.to_nat off) (data msg)) (data_len msg - off) in
  send_loop (S fuel) msg (data_len msg) off t h =
  if fst w =? -1 then
    Return (-1) (with_m_ssl (Some (snd w)) t)
           (EvLog "error: SSL transport failed to send message!"
            :: EvSslWrite off (data_len msg - off) (fst w) :: h)
  else
    send_loop fuel msg (data_len msg) (off + fst w)
              (with_m_ssl (Some (snd w)) t)
              (EvSslWrite off (data_len msg - off) (fst w) :: h).
Proof.
  intros Hs Hoff w. simpl.
  destruct (off <? data_len msg) eqn:Elt; [|apply Z.ltb_ge in Elt; lia].
  unfold bind at 1.
  rewrite (ssl_write_run msg off (data_len msg - off) t s h Hs) by lia.
  cbv zeta. fold w.
  destruct (fst w =? -1); reflexivity.
Qed.

(** The loop of [send] when each write either finds room or reports -1:
    it ends within as many iterations as bytes are left, having reached
    the end of the message or having met the -1 before it. The peer holds
    what the writes that found room took and what the failing write had
    put on the wire. *)
Lemma send_loop_accept_or_fail (msg : message) (fuel : nat) :
  forall (off : Z) (t : ssl_transport) (s : SSL) (h : history),
    m_ssl t = Some s ->
    (forall i, (ssl_tx_calls s <= i)%nat ->
               (exists cap, ssl_tx s i = TxAccept cap) \/
               (exists k, ssl_tx s i = TxError 1 k)) ->
    0 <= off <= data_len msg ->
    (Z.to_nat (data_len msg - off) <= fuel)%nat ->
    exists (s' : SSL) (upto : Z),
      off <= upto <= data_len msg /\
      ssl_sent s'
      = ssl_sent s ++ firstn (Z.to_nat (upto - off))
                             (skipn (Z.to_nat off) (data msg)) /\
      ssl_tx s' = ssl_tx s /\
      ((exists h',
          send_loop fuel msg (data_len msg) off t h
          = Next (data_len msg) (with_m_ssl (Some s') t) h' /\
          upto = data_len msg) \/
       (exists (at_ : Z) (k : nat) (h' : history),
          send_loop fuel msg (data_len msg) off t h
          = Return (-1) (with_m_ssl (Some s') t)
              (EvLog "error: SSL transport failed to send message!"
               :: EvSslWrite at_ (data_len msg - at_) (-1) :: h') /\
          off <= at_ < data_len msg /\
          ssl_tx s (pred (ssl_tx_calls s')) = TxError 1 k /\
          upto = at_ + Z.of_nat (Nat.min k (Z.to_nat (data_len msg - at_))))).
Proof.
  induction fuel as [|fuel IH]; intros off t s h Hs Htx Hoff Hfuel.
  - assert (off = data_len msg) by lia. subst off.
    exists s, (data_len msg). simpl. rewrite Z.ltb_irrefl.
    split; [lia|]. split; [|split; [reflexivity|]].
    + rewrite Z.sub_diag. simpl. rewrite app_nil_r. reflexivity.
    + left. exists h. split; [|reflexivity].
      unfold pure. rewrite (with_m_ssl_same t s Hs). reflexivity.
  - destruct (Z.ltb_spec off (data_len msg)) as [Elt|Elt].
    + rewrite (send_loop_step msg fuel off t s h Hs) by lia.
      cbv zeta.
      set (buf := skipn (Z.to_nat off) (data msg)).
      destruct (Htx (ssl_tx_calls s) (Nat.le_refl _)) as [[cap Hcap]|[k Herr]].
      * destruct (SSL_write_accept s buf (data_len msg - off) cap Hcap)
          as ([Hr0 Hr1] & Hsent & Hcalls & Htx'); [lia|].
        set (w := SSL_write s buf (data_len msg - off)) in *.
        destruct (fst w =? -1) eqn:E1; [apply Z.eqb_eq in E1; lia|].
        destruct (IH (off + fst w) (with_m_ssl (Some (snd w)) t) (snd w)
                     (EvSslWrite off (data_len msg - off) (fst w) :: h))
          as (s' & upto & Hup & Hsent' & Hsame & Hres).
        -- reflexivity.
        -- intros i Hi. rewrite Htx'. apply Htx. lia.
        -- lia.
        -- lia.
        -- exists s', upto. split; [lia|]. split; [|split].
           ++ rewrite Hsent', Hsent, <- app_assoc. f_equal.
              replace (Z.to_nat (upto - off))
                with (Z.to_nat (fst w) + Z.to_nat (upto - (off + fst w)))%nat
                by lia.
              rewrite firstn_add_skipn. f_equal. f_equal.
              subst buf. rewrite skipn_skipn. f_equal. lia.
           ++ rewrite Hsame. exact Htx'.
           ++ destruct Hres as [(h' & E & Hu)|(at_ & k & h' & E & Hat & Hk & Hu)].
              ** left. exists h'. auto.
              ** right. exists at_, k, h'.
                 split; [exact E|]. split; [lia|]. split; [|exact Hu].
                 rewrite <- Htx'. exact Hk.
      * unfold SSL_write. rewrite Herr. cbn [fst snd].
        change (Z.neg 1 =? -1) with true. cbv iota.
        fold buf.
        set (d := Nat.min k (Z.to_nat (data_len msg - off))).
        exists (wrote (firstn d buf) s), (off + Z.of_nat d).
        split; [lia|]. split; [|split; [reflexivity|]].
        -- simpl. f_equal. f_equal. lia.
        -- right. exists off, k, h.
           split; [reflexivity|]. split; [lia|]. split; [exact Herr|reflexivity].
    + assert (off = data_len msg) by lia. subst off.
      exists s, (data_len msg).
      split; [lia|]. split; [|split; [reflexivity|]].
      * rewrite Z.sub_diag. simpl. rewrite app_nil_r. reflexivity.
      * left. exists h. split; [|reflexivity].
        simpl. rewrite Z.ltb_irrefl.
        unfold pure. rewrite (with_m_ssl_same t s Hs). reflexivity.
Qed.

(** When each write either finds room or reports -1, [send] returns
    within as many iterations as the message has bytes, with the full
    length or with -1, and the peer has then been sent the first [upto]
    bytes of the message and nothing else. With the length, that is the
    whole message. With -1, that is what the earlier writes took (the
    offset [at_] of the failing write) and what the failing write itself
    had put on the wire, which can be all that was left: the -1 does not
    tell the caller how much has gone out. *)
Theorem send_all_or_prefix
    (fuel : nat) (msg : message) (t : ssl_transport) (s : SSL) (h : history) :
  m_ssl t = Some s ->
  (forall i, (ssl_tx_calls s <= i)%nat ->
             (exists cap, ssl_tx s i = TxAccept cap) \/
             (exists k, ssl_tx s i = TxError 1 k)) ->
  (length (data msg) <= fuel)%nat ->
  exists (s' : SSL) (upto : Z),
    m_ssl (state_of (send fuel msg t h)) = Some s' /\
    ssl_sent s' = ssl_sent s ++ firstn (Z.to_nat upto) (data msg) /\
    ((returned (send fuel msg t h) = Some (data_len msg) /\
      upto = data_len msg) \/
     (returned (send fuel msg t h) = Some (-1) /\
      exists (at_ : Z) (k : nat) (h' : history),
        history_of (send fuel msg t h)
        = EvLog "error: SSL transport failed to send message!"
          :: EvSslWrite at_ (data_len msg - at_) (-1) :: h' /\
        0 <= at_ < data_len msg /\
        ssl_tx s (pred (ssl_tx_calls s')) = TxError 1 k /\
        upto = at_ + Z.of_nat (Nat.min k (Z.to_nat (data_len msg - at_))))).
Proof.
  intros Hs Htx Hfuel.
  destruct (send_loop_accept_or_fail msg fuel 0 t s h Hs Htx)
    as (s' & upto & Hup & Hsent & _ & Hres).
  - unfold data_len. lia.
  - unfold data_len. rewrite Z.sub_0_r, Nat2Z.id. exact Hfuel.
  - exists s', upto. rewrite Z.sub_0_r in Hsent. simpl in Hsent.
    unfold send, bind.
    destruct Hres as [(h' & E & Hu)|(at_ & k & h' & E & Hat & Hk & Hu)];
      rewrite E; simpl.
    + split; [reflexivity|]. split; [exact Hsent|]. left. auto.
    + split; [reflexivity|]. split; [exact Hsent|]. right.
      split; [reflexivity|]. exists at_, k, h'. auto.
Qed.

(** The loop of [send] when every write reports 0: every iteration of
    the budget is used for a write at the same offset, and nothing is
    sent. *)
Lemma send_loop_no_progress (msg : message) (fuel : nat) :
  forall (off : Z) (t : ssl_transport) (s : SSL) (h : history),
    m_ssl t = Some s ->
    (forall i, (ssl_tx_calls s <= i)%nat -> ssl_tx s i = TxZero) ->
    0 <= off < data_len msg ->
    exists (s' : SSL) (h' : history),
      send_loop fuel msg (data_len msg) off t h
      = Spin (with_m_ssl (Some s') t) h' /\
      ssl_sent s' = ssl_sent s /\
      ssl_tx_calls s' = (ssl_tx_calls s + fuel)%nat.
Proof.
  induction fuel as [|fuel IH]; intros off t s h Hs Htx Hoff.
  - exists s, h. simpl.
    destruct (off <? data_len msg) eqn:Elt; [|apply Z.ltb_ge in Elt; lia].
    unfold spin. rewrite (with_m_ssl_same t s Hs).
    repeat split. lia.
  - rewrite (send_loop_step msg fuel off t s h Hs) by lia.
    cbv zeta. unfold SSL_write. rewrite (Htx _ (Nat.le_refl _)).
    cbn [fst snd]. change (0 =? -1) with false. cbv iota.
    rewrite Z.add_0_r.
    destruct (IH off (with_m_ssl (Some (wrote [] s)) t) (wrote [] s)
                 (EvSslWrite off (data_len msg - off) 0 :: h))
      as (s' & h' & E & Hsent & Hcalls).
    + reflexivity.
    + intros i Hi. simpl in Hi. simpl. apply Htx. lia.
    + exact Hoff.
    + exists s', h'. split; [exact E|]. split.
      * rewrite Hsent. simpl. apply app_nil_r.
      * rewrite Hcalls. simpl. lia.
Qed.

(** When every write reports 0 bytes, [send] of a message that is not
    empty does not return: whatever the budget, all of it is spent on
    writes, none of which sends anything. *)
Theorem send_spins_without_progress
    (fuel : nat) (msg : message) (t : ssl_transport) (s : SSL) (h : history) :
  m_ssl t = Some s ->
  (forall i, (ssl_tx_calls s <= i)%nat -> ssl_tx s i = TxZero) ->
  data msg <> [] ->
  exists (s' : SSL) (h' : history),
    send fuel msg t h = Spin (with_m_ssl (Some s') t) h' /\
    ssl_sent s' = ssl_sent s /\
    ssl_tx_calls s' = (ssl_tx_calls s + fuel)%nat.
Proof.
  intros Hs Htx Hne.
  destruct (send_loop_no_progress msg fuel 0 t s h Hs Htx)
    as (s' & h' & E & Hsent & Hcalls).
  - unfold data_len. destruct (data msg); [contradiction|]. simpl. lia.
  - exists s', h'. unfold send, bind. rewrite E. auto.
Qed.

End SendMore.

(** "PING" when the first write takes 3 bytes and the second fails with
    -1 after 2 more have gone out: [send] returns -1 and the peer holds 5
    bytes. *)
Lemma send_all_or_prefix_witness :
  exists (s' : SSL) (upto : Z),
    m_ssl (state_of (send 8 Demo.ping
             (Demo.established (Demo.session [] DemoRest.failing)) []))
    = Some s' /\
    ssl_sent s' = [] ++ firstn (Z.to_nat upto) (data Demo.ping) /\
    ((returned (send 8 Demo.ping
                  (Demo.established (Demo.session [] DemoRest.failing)) [])
      = Some (data_len Demo.ping) /\
      upto = data_len Demo.ping) \/
     (returned (send 8 Demo.ping
                  (Demo.established (Demo.session [] DemoRest.failing)) [])
      = Some (-1) /\
      exists (at_ : Z) (k : nat) (h' : history),
        history_of (send 8 Demo.ping
                      (Demo.established (Demo.session [] DemoRest.failing)) [])
        = EvLog "error: SSL transport failed to send message!"
          :: EvSslWrite at_ (data_len Demo.ping - at_) (-1) :: h' /\
        0 <= at_ < data_len Demo.ping /\
        ssl_tx (Demo.session [] DemoRest.failing) (pred (ssl_tx_calls s'))
        = TxError 1 k /\
        upto = at_ + Z.of_nat (Nat.min k (Z.to_nat (data_len Demo.ping - at_))))).
Proof.
  apply (@send_all_or_prefix _ 8 Demo.ping
           (Demo.established (Demo.session [] DemoRest.failing))
           (Demo.session [] DemoRest.failing) []).
  - reflexivity.
  - intros [|i] _; [left; exists 3%positive; reflexivity
                   | right; exists 2%nat; reflexivity].
  - simpl. lia.
Defined.

Lemma send_spins_without_progress_witness :
  exists (s' : SSL) (h' : history),
    send 5 Demo.ping (Demo.established (Demo.session [] (fun _ => TxZero))) []
    = Spin (with_m_ssl (Some s')
              (Demo.established (Demo.session [] (fun _ => TxZero)))) h' /\
    ssl_sent s' = [] /\
    ssl_tx_calls s' = 5%nat.
Proof.
  apply (@send_spins_without_progress _ 5 Demo.ping
           (Demo.established (Demo.session [] (fun _ => TxZero)))
           (Demo.session [] (fun _ => TxZero)) []).
  - reflexivity.
  - intros i _. reflexivity.
  - discriminate.
Defined.

(** ** More about [recv] *)

(** A read that does not give a positive result hands over no bytes. *)
Lemma SSL_read_nothing (s : SSL) (num : Z) :
  fst (fst (SSL_read s num)) <= 0 -> snd (fst (SSL_read s num)) = [].
Proof.
  unfold SSL_read.
  destruct (ssl_rx s) as [|[b bs| |p] rest]; simpl; try reflexivity.
  destruct (num <=? 0) eqn:E; simpl; [reflexivity|].
  apply Z.leb_gt in E.
  destruct (Z.to_nat num) as [|k] eqn:K; [lia|].
  simpl. lia.
Qed.

Lemma firstn_length_app (a b : buffer) : firstn (length a) (a ++ b) = a.
Proof.
  induction a as [|x a IH]; simpl; [reflexivity|]. rewrite IH. reflexivity.
Qed.

Lemma skipn_length_app (a b : buffer) : skipn (length a) (a ++ b) = b.
Proof.
  induction a as [|x a IH]; simpl; [reflexivity|]. exact IH.
Qed.

(** A read for as many bytes as the front part of the pending record has
    hands over that part and keeps the rest of the record. *)
Lemma SSL_read_front (s : SSL) (a b : buffer) (rest : list rx_item) :
  a <> [] ->
  ssl_rx s = push_rx (a ++ b) rest ->
  SSL_read s (Z.of_nat (length a))
  = (Z.of_nat (length a), a, set_rx (push_rx b rest) s).
Proof.
  intros Ha Hrx. unfold SSL_read. rewrite Hrx.
  destruct a as [|x a]; [contradiction|].
  cbn [app push_rx].
  destruct (Z.of_nat (length (x :: a)) <=? 0) eqn:E;
    [apply Z.leb_le in E; simpl in E; lia|].
  rewrite Nat2Z.id.
  change (x :: a ++ b) with ((x :: a) ++ b).
  rewrite firstn_length_app, skipn_length_app. reflexivity.
Qed.

Section ReceiveMore.

Context {core : CoreDecls} {lib : OpenSSL}.

(** When the header read gives no bytes (the peer has closed, or nothing
    has arrived), [recv] leaves the message exactly as it was given. *)
Theorem recv_nothing_leaves_message
    (msg : message) (t : ssl_transport) (s : SSL) (h : history) :
  m_ssl t = Some s ->
  fst (fst (SSL_read s (Z.of_nat header_len))) <= 0 ->
  fst (state_of (recv (msg, t) h)) = msg /\
  (returned (recv (msg, t) h) = Some TPT_CLOSE \/
   returned (recv (msg, t) h) = Some TPT_EMPTY).
Proof.
  intros Hs Hr.
  pose proof (SSL_read_nothing s (Z.of_nat header_len) Hr) as Hgot.
  unfold recv, bind, ssl_read_into. rewrite Hs. rewrite Hgot.
  destruct msg as [hd bd].
  destruct (fst (fst (SSL_read s (Z.of_nat header_len))) =? 0) eqn:E0.
  - simpl. auto.
  - destruct (fst (fst (SSL_read s (Z.of_nat header_len))) <? 0) eqn:E1.
    + simpl. auto.
    + apply Z.eqb_neq in E0. apply Z.ltb_ge in E1. lia.
Qed.

(** [recv] keeps the header region at its size: a message whose header
    has [header_len] bytes still has such a header afterwards, whatever
    the session delivered. *)
Theorem recv_keeps_header_size
    (msg : message) (t : ssl_transport) (s : SSL) (h : history) :
  m_ssl t = Some s ->
  wf_message msg ->
  wf_message (fst (state_of (recv (msg, t) h))).
Proof.
  intros Hs Hwf.
  assert (Hlen : length (overwrite (snd (fst (SSL_read s (Z.of_nat header_len))))
                                   (header msg)) = header_len).
  { rewrite length_overwrite; [exact Hwf|].
    pose proof (SSL_read_bound s (Z.of_nat header_len)) as B.
    rewrite Nat2Z.id in B. unfold wf_message in Hwf. lia. }
  unfold recv, bind, ssl_read_into. rewrite Hs.
  destruct (fst (fst (SSL_read s (Z.of_nat header_len))) =? 0) eqn:E0;
    [exact Hlen|].
  destruct (fst (fst (SSL_read s (Z.of_nat header_len))) <? 0) eqn:E1;
    [exact Hlen|].
  exact Hlen.
Qed.

(** A message sent is the message received. When [send] gets all of a
    well-formed message with a body accepted, and the receiving session
    holds what was sent as one record, [recv] returns the body length and
    leaves exactly the message that was sent, whatever message buffer it
    was given; what the session held behind the record is still there. *)
Theorem send_recv_round_trip
    (fuel : nat) (msg msg0 : message)
    (ta tb : ssl_transport) (sa sb : SSL) (rest : list rx_item)
    (ha hb : history) :
  m_ssl ta = Some sa ->
  ssl_sent sa = [] ->
  (forall i, (ssl_tx_calls sa <= i)%nat -> exists cap, ssl_tx sa i = TxAccept cap) ->
  (length (data msg) <= fuel)%nat ->
  wf_message msg ->
  body_len msg = length (body msg) ->
  body msg <> [] ->
  (0 < header_len)%nat ->
  wf_message msg0 ->
  m_ssl tb = Some sb ->
  (forall sa', m_ssl (state_of (send fuel msg ta ha)) = Some sa' ->
               ssl_rx sb = push_rx (ssl_sent sa') rest) ->
  returned (send fuel msg ta ha) = Some (data_len msg) /\
  returned (recv (msg0, tb) hb) = Some (Z.of_nat (length (body msg))) /\
  state_of (recv (msg0, tb) hb) = (msg, with_m_ssl (Some (set_rx rest sb)) tb).
Proof.
  intros Hsa Hempty Htx Hfuel Hwf Hbl Hbody Hpos Hwf0 Hsb Hwire.
  destruct (send_loop_completes msg fuel 0 ta sa ha Hsa Htx)
    as (sa' & evs & E & _ & Hsent).
  { unfold data_len. lia. }
  { unfold data_len. rewrite Z.sub_0_r, Nat2Z.id. exact Hfuel. }
  assert (Esend : send fuel msg ta ha
                  = Return (data_len msg) (with_m_ssl (Some sa') ta) (rev evs ++ ha)).
  { unfold send, bind. rewrite E. reflexivity. }
  rewrite Esend in Hwire. rewrite Esend.
  split; [reflexivity|].
  specialize (Hwire sa' eq_refl).
  rewrite Hsent, Hempty in Hwire. simpl in Hwire. unfold data in Hwire.
  unfold wf_message in Hwf, Hwf0.
  assert (Hhdr : header msg <> []).
  { intros H0. rewrite H0 in Hwf. simpl in Hwf. lia. }
  pose proof (SSL_read_front sb (header msg) (body msg) rest Hhdr Hwire) as R1.
  rewrite Hwf in R1.
  assert (Hr : 0 < fst (fst (SSL_read sb (Z.of_nat header_len))))
    by (rewrite R1; simpl; lia).
  rewrite (recv_with_header msg0 tb sb hb Hsb Hr).
  unfold after_header, body_len. rewrite R1. cbn [fst snd store header body].
  assert (Hov : overwrite (header msg) (header msg0) = header msg)
    by (apply overwrite_all; lia).
  rewrite Hov. unfold body_len in Hbl. rewrite Hbl.
  assert (R2 : SSL_read (set_rx (push_rx (body msg) rest) sb)
                        (Z.of_nat (length (body msg)))
               = (Z.of_nat (length (body msg)), body msg, set_rx rest sb)).
  { rewrite (SSL_read_front (set_rx (push_rx (body msg) rest) sb)
               (body msg) [] rest Hbody).
    - reflexivity.
    - rewrite app_nil_r. reflexivity. }
  rewrite R2. cbn [fst snd returned state_of resize store header body].
  split; [reflexivity|].
  rewrite overwrite_all by (rewrite length_resize_buf; reflexivity).
  destruct msg as [hd bd]. reflexivity.
Qed.

End ReceiveMore.

Lemma recv_nothing_leaves_message_witness :
  fst (state_of (@recv Demo.core _
                   (Demo.ping, Demo.established Demo.quiet) []))
  = Demo.ping.
Proof.
  apply (@recv_nothing_leaves_message Demo.core _ Demo.ping
           (Demo.established Demo.quiet) Demo.quiet []);
    [reflexivity | vm_compute; discriminate].
Defined.

Lemma recv_keeps_header_size_witness :
  @wf_message Demo.core
    (fst (state_of (@recv Demo.core _
                      (Demo.ping,
                       Demo.established
                         (Demo.session [RxRecord x00 [x00]; RxRecord x00 [x08]]
                                       Demo.flaky)) []))).
Proof.
  apply (@recv_keeps_header_size Demo.core _ Demo.ping
           (Demo.established
              (Demo.session [RxRecord x00 [x00]; RxRecord x00 [x08]] Demo.flaky))
           (Demo.session [RxRecord x00 [x00]; RxRecord x00 [x08]] Demo.flaky) []);
    reflexivity.
Defined.

(** "PING" sent over writes of at most 3 bytes and received from one
    record into a buffer that held something else. *)
Lemma send_recv_round_trip_witness :
  state_of (@recv Demo.core _
              ({| header := [x09; x09; x09; x09]; body := [x01] |},
               DemoRest.holding (Demo.session DemoRest.ping_record Demo.flaky))
              [])
  = (Demo.ping,
     with_m_ssl (Some (Demo.session [RxClosed] Demo.flaky))
       (DemoRest.holding (Demo.session DemoRest.ping_record Demo.flaky))).
Proof.
  apply (@send_recv_round_trip Demo.core _ 8 Demo.ping
           {| header := [x09; x09; x09; x09]; body := [x01] |}
           (DemoRest.holding (Demo.session [] (fun _ => TxAccept 3)))
           (DemoRest.holding (Demo.session DemoRest.ping_record Demo.flaky))
           (Demo.session [] (fun _ => TxAccept 3))
           (Demo.session DemoRest.ping_record Demo.flaky)
           [RxClosed] [] []).
  - reflexivity.
  - reflexivity.
  - intros i _. exists 3%positive. reflexivity.
  - simpl. lia.
  - reflexivity.
  - reflexivity.
  - discriminate.
  - simpl. lia.
  - reflexivity.
  - reflexivity.
  - intros sa' H. vm_compute in H. injection H as H. subst sa'. reflexivity.
Defined.

(** ** Options, identity and [init] together *)

Section InitComposed.

Context {core : CoreDecls} {lib : OpenSSL} {net : Network}
        {decls : SslDecls} {libc : Libc}.

(** The options decide where [init] goes. After [setopt] of a host and a
    port, every connect of [init] is to that host and the port [atoi]
    reads, and every bind is on that port; on a transport as constructed
    they go to the local address and port 443. *)
Theorem setopt_then_init
    (type : Z) (t : ssl_transport) (h0 : history) (host port : string) :
  SSL_OPT_HOST <> SSL_OPT_PORT ->
  let t' := state_of ((setopt SSL_OPT_HOST host ;; setopt SSL_OPT_PORT port) t h0) in
  Forall (aims_at host (atoi port)) (trace_of (init type t' [])) /\
  Forall (aims_at sock_get_ip 443) (trace_of (init type ssl_transport_new [])).
Proof.
  intros Hne.
  assert (Hph : (SSL_OPT_PORT =? SSL_OPT_HOST) = false)
    by (apply Z.eqb_neq; intros E; apply Hne; symmetry; exact E).
  cbv zeta. unfold setopt, bind. rewrite !Z.eqb_refl, Hph. cbn [state_of].
  split; paths; repeat constructor.
Qed.

(** An identity that does not load stops every [init] before the
    network: when [ssl_load_cert_bufs] fails on the embedded buffers for
    every context, [init] returns -1, creates no session and makes no
    connect, bind, accept or handshake. *)
Theorem init_bad_identity (type : Z) (t : ssl_transport) :
  (forall ctx,
     returned (ssl_load_cert_bufs _crtbuf _crtbuf_len _keybuf _keybuf_len ctx [])
     = Some (-1)) ->
  let o := init type t [] in
  returned o = Some (-1) /\
  existsb session_created (trace_of o) = false /\
  existsb is_stream_step (trace_of o) = false.
Proof.
  intros Hbad. cbv zeta. paths.
  all: try (repeat split; reflexivity).
  all: exfalso;
       match goal with
       | E : SSL_CTX_new _ = Some ?c |- _ => specialize (Hbad c)
       end;
       unfold ssl_load_cert_bufs, use_certificate, use_RSAPrivateKey,
         check_private_key, bind, LOG, emit, return_ in Hbad;
       cbn in Hbad;
       repeat match goal with
              | E : SSL_CTX_use_certificate _ _ = _ |- _ =>
                  rewrite E in Hbad; cbn in Hbad
              | E : SSL_CTX_use_RSAPrivateKey _ _ = _ |- _ =>
                  rewrite E in Hbad; cbn in Hbad
              | E : (_ <=? _) = _ |- _ => rewrite E in Hbad; cbn in Hbad
              | E : (_ =? _) = _ |- _ => rewrite E in Hbad; cbn in Hbad
              end;
       discriminate Hbad.
Qed.

End InitComposed.

Lemma setopt_then_init_witness :
  Forall (aims_at "10.0.0.7" 8443)
    (trace_of (@init Demo.core (Demo.lib true (Some Demo.quiet) 1 1)
                 (Demo.net 5 0 6) 0
                 (state_of ((@setopt _ DemoRest.decls DemoRest.libc 0 "10.0.0.7" ;;
                             @setopt _ DemoRest.decls DemoRest.libc 1 "8443")
                              (Demo.established Demo.quiet) [])) [])) /\
  In (EvConnect "10.0.0.7" 8443 5)
    (trace_of (@init Demo.core (Demo.lib true (Some Demo.quiet) 1 1)
                 (Demo.net 5 0 6) 0
                 (state_of ((@setopt _ DemoRest.decls DemoRest.libc 0 "10.0.0.7" ;;
                             @setopt _ DemoRest.decls DemoRest.libc 1 "8443")
                              (Demo.established Demo.quiet) [])) [])).
Proof.
  split.
  - apply (@setopt_then_init Demo.core (Demo.lib true (Some Demo.quiet) 1 1)
             (Demo.net 5 0 6) DemoRest.decls DemoRest.libc 0
             (Demo.established Demo.quiet) [] "10.0.0.7" "8443").
    discriminate.
  - vm_compute. tauto.
Defined.

(** A library that takes no key: the identity never loads. *)
Lemma init_bad_identity_witness :
  let o := @init Demo.core (Demo.lib true (Some Demo.quiet) 1 1)
                 (Demo.net 5 0 6) 0
                 (@ssl_transport_new _ (Demo.net 5 0 6)) [] in
  returned o = Some 0 /\
  let o' := @init {| TPT_CLIENT := 0; TPT_SERVER := 1; TPT_CLOSE := -2;
                     TPT_EMPTY := -3; header_len := 4;
                     decode_body_len := Demo.be_number;
                     _crtbuf := [x43; x00]; _crtbuf_len := 1;
                     _keybuf := [x4b; x00]; _keybuf_len := 1 |}
                  (Demo.lib true (Some Demo.quiet) 1 1)
                  (Demo.net 5 0 6) 0
                  (@ssl_transport_new _ (Demo.net 5 0 6)) [] in
  returned o' = Some (-1) /\
  existsb session_created (trace_of o') = false /\
  existsb is_stream_step (trace_of o') = false.
Proof.
  split; [reflexivity|].
  apply (@init_bad_identity
           {| TPT_CLIENT := 0; TPT_SERVER := 1; TPT_CLOSE := -2;
              TPT_EMPTY := -3; header_len := 4;
              decode_body_len := Demo.be_number;
              _crtbuf := [x43; x00]; _crtbuf_len := 1;
              _keybuf := [x4b; x00]; _keybuf_len := 1 |}
           (Demo.lib true (Some Demo.quiet) 1 1) (Demo.net 5 0 6) 0
           (@ssl_transport_new _ (Demo.net 5 0 6))).
  intros ctx. reflexivity.
Defined.

(** ** A header that comes in pieces *)

Section ReceiveShort.

Context {core : CoreDecls} {lib : OpenSSL}.

(** [recv] does not wait for a whole header. When the header read gives
    some but not all of the [header_len] bytes, [recv] goes on at once:
    the header it derives the body length from is made of the bytes read,
    followed by the bytes the message held there before, and the resize
    and the body read follow as for a full header. *)
Theorem recv_short_header_goes_on
    (msg : message) (t : ssl_transport) (s : SSL) (h : history) :
  m_ssl t = Some s ->
  wf_message msg ->
  let r1 := fst (fst (SSL_read s (Z.of_nat header_len))) in
  let got := snd (fst (SSL_read s (Z.of_nat header_len))) in
  0 < r1 < Z.of_nat header_len ->
  let mixed := got ++ skipn (Z.to_nat r1) (header msg) in
  let o := recv (msg, t) h in
  length mixed = header_len /\
  skipn (Z.to_nat r1) (header msg) <> [] /\
  header (fst (state_of o)) = mixed /\
  exists r2,
    returned o = Some r2 /\
    history_of o
    = EvSslRead AtBody (Z.of_nat (decode_body_len mixed)) r2
      :: EvResize (decode_body_len mixed)
      :: EvSslRead AtData (Z.of_nat header_len) r1 :: h.
Proof.
  intros Hs Hwf r1 got Hr mixed o.
  assert (Hpos : 0 < fst (fst (SSL_read s (Z.of_nat header_len)))) by (fold r1; lia).
  pose proof (SSL_read_count s (Z.of_nat header_len) Hpos) as Hcount.
  fold r1 got in Hcount.
  assert (Hgot : Z.to_nat r1 = length got) by lia.
  unfold wf_message in Hwf.
  assert (Hmixed : mixed = overwrite got (header msg)).
  { unfold mixed, overwrite. rewrite Hgot. reflexivity. }
  split; [|split; [|split]].
  - rewrite Hmixed, length_overwrite; [exact Hwf|lia].
  - intros Hnil. apply (f_equal (@length byte)) in Hnil.
    rewrite length_skipn in Hnil. simpl in Hnil. lia.
  - subst o. rewrite (recv_with_header msg t s h Hs Hpos).
    rewrite Hmixed. reflexivity.
  - subst o. rewrite (recv_with_header msg t s h Hs Hpos).
    eexists. split; [reflexivity|].
    rewrite Hmixed. reflexivity.
Qed.

End ReceiveShort.

Lemma recv_short_header_goes_on_witness :
  header (fst (state_of
    (@recv Demo.core _
       (Demo.ping,
        Demo.established
          (Demo.session [RxRecord x00 [x00]; RxRecord x00 [x08]] Demo.flaky))
       [])))
  = [x00; x00] ++ skipn 2 (header Demo.ping).
Proof.
  apply (@recv_short_header_goes_on Demo.core _ Demo.ping
           (Demo.established
              (Demo.session [RxRecord x00 [x00]; RxRecord x00 [x08]] Demo.flaky))
           (Demo.session [RxRecord x00 [x00]; RxRecord x00 [x08]] Demo.flaky) []).
  - reflexivity.
  - reflexivity.
  - vm_compute. split; reflexivity.
Defined.

(** ** Handshakes that give 0, and the steps a role performs *)

Section InitRole.

Context {core : CoreDecls} {lib : OpenSSL} {net : Network}.

(** [init] up to the session, when the set-up succeeds. *)
Lemma identity_loads_tests (ctx ctx' : SSL_CTX) :
  identity_loads ctx = Some ctx' ->
  let u1 := SSL_CTX_use_certificate ctx (PEM_read_bio_X509 (c_str _crtbuf)) in
  let u2 := SSL_CTX_use_RSAPrivateKey (snd u1)
              (PEM_read_bio_RSAPrivateKey (c_str _keybuf)) in
  (fst u1 <=? 0) = false /\ (fst u2 <=? 0) = false /\
  (SSL_CTX_check_private_key (snd u2) =? 0) = false /\ snd u2 = ctx'.
Proof.
  unfold identity_loads. cbv zeta.
  destruct (0 <? fst (SSL_CTX_use_certificate ctx _)) eqn:A1; [|discriminate].
  destruct (0 <? fst (SSL_CTX_use_RSAPrivateKey _ _)) eqn:A2; [|discriminate].
  destruct (SSL_CTX_check_private_key _ =? 0) eqn:A3; [discriminate|].
  cbn. intros E. injection E as E.
  apply Z.ltb_lt in A1. apply Z.ltb_lt in A2.
  repeat split; try (apply Z.leb_gt; assumption); assumption.
Qed.

(** C8, as amended. Once the context is created, the identity loaded
    and the session created, a client performs the connect and, unless
    the connect gives a negative result, the connect-side handshake on the
    session bound to the socket, and these are all its stream steps, in
    this order; a server performs the bind, then unless it fails the
    accept, then unless it fails the accept-side handshake, and nothing
    else. Any other type makes [init] return -1 without a stream step or
    a handshake. *)
Theorem init_role_performs_steps (type : Z) (t : ssl_transport) :
  TPT_CLIENT <> TPT_SERVER ->
  let o := init type t [] in
  (type = TPT_CLIENT ->
   forall (ctx ctx' : SSL_CTX) (s : SSL),
     SSL_CTX_new TLSv1_client_method = Some ctx ->
     identity_loads ctx = Some ctx' ->
     SSL_new ctx' = Some s ->
     let c := net_connect (m_opt_host t) (m_opt_port t) in
     filter is_stream_step (trace_of o)
     = EvConnect (m_opt_host t) (m_opt_port t) c
       :: (if c <? 0 then []
           else [EvSslConnect (SSL_connect (SSL_set_fd s c))])) /\
  (type = TPT_SERVER ->
   forall (ctx ctx' : SSL_CTX) (s : SSL),
     SSL_CTX_new TLSv1_server_method = Some ctx ->
     identity_loads ctx = Some ctx' ->
     SSL_new ctx' = Some s ->
     let b := net_bind (m_opt_port t) in
     let a := net_accept in
     filter is_stream_step (trace_of o)
     = EvBind (m_opt_port t) b
       :: (if b <? 0 then []
           else EvAccept a
                :: (if a <? 0 then []
                    else [EvSslAccept (SSL_accept (SSL_set_fd s a))]))) /\
  (type <> TPT_CLIENT -> type <> TPT_SERVER ->
   returned o = Some (-1) /\
   existsb is_stream_step (trace_of o) = false).
Proof.
  intros Hne. cbv zeta. split; [|split].
  - intros -> ctx ctx' s Hctx Hid Hs.
    destruct (identity_loads_tests ctx ctx' Hid) as (T1 & T2 & T3 & E).
    cbv zeta in T1, T2, T3, E.
    paths_unfold. rewrite Z.eqb_refl. cbn. rewrite Hctx. cbn.
    destruct (SSL_CTX_use_certificate ctx _) as [r1 c1]. cbn in *.
    rewrite T1. cbn.
    destruct (SSL_CTX_use_RSAPrivateKey c1 _) as [r2 c2]. cbn in *.
    rewrite T2. cbn. rewrite T3. cbn. subst c2. rewrite Hs. cbn.
    destruct (net_connect (m_opt_host t) (m_opt_port t) <? 0) eqn:C; cbn;
      [reflexivity|].
    destruct (SSL_connect _ <? 0); cbn; [reflexivity|].
    destruct (SSL_get_peer_certificate _); reflexivity.
  - intros -> ctx ctx' s Hctx Hid Hs.
    destruct (identity_loads_tests ctx ctx' Hid) as (T1 & T2 & T3 & E).
    cbv zeta in T1, T2, T3, E.
    assert (Hsc : (TPT_SERVER =? TPT_CLIENT) = false)
      by (apply Z.eqb_neq; intros X; apply Hne; symmetry; exact X).
    paths_unfold. rewrite Hsc, Z.eqb_refl. cbn. rewrite Hctx. cbn.
    destruct (SSL_CTX_use_certificate ctx _) as [r1 c1]. cbn in *.
    rewrite T1. cbn.
    destruct (SSL_CTX_use_RSAPrivateKey c1 _) as [r2 c2]. cbn in *.
    rewrite T2. cbn. rewrite T3. cbn. subst c2. rewrite Hs. cbn.
    destruct (net_bind (m_opt_port t) <? 0) eqn:B; cbn; [reflexivity|].
    destruct (net_accept <? 0) eqn:A; cbn; [reflexivity|].
    destruct (SSL_accept _ <? 0); cbn; [reflexivity|].
    destruct (SSL_get_peer_certificate _); reflexivity.
  - intros H1 H2.
    apply Z.eqb_neq in H1. apply Z.eqb_neq in H2.
    paths_unfold. rewrite H1, H2. cbn. split; reflexivity.
Qed.

End InitRole.

Lemma init_role_performs_steps_witness :
  filter is_stream_step
    (trace_of (@init Demo.core (Demo.lib true (Some Demo.quiet) 1 1)
                     (Demo.net 5 0 6) 0
                     (@ssl_transport_new _ (Demo.net 5 0 6)) []))
  = [EvConnect "127.0.0.1" 443 5; EvSslConnect 1] /\
  filter is_stream_step
    (trace_of (@init Demo.core (Demo.lib true (Some Demo.quiet) 1 1)
                     (Demo.net 5 0 6) 1
                     (@ssl_transport_new _ (Demo.net 5 0 6)) []))
  = [EvBind 443 0; EvAccept 6; EvSslAccept 1].
Proof.
  split.
  - apply (proj1 (@init_role_performs_steps Demo.core
                    (Demo.lib true (Some Demo.quiet) 1 1) (Demo.net 5 0 6) 0
                    (@ssl_transport_new _ (Demo.net 5 0 6))
                    ltac:(discriminate))
                 eq_refl
                 (Demo.mkCtx TLSv1_client_method None None)
                 (Demo.mkCtx TLSv1_client_method
                    (Some [x43; x45; x52; x54]) (Some [x43; x45; x52; x54]))
                 Demo.quiet eq_refl eq_refl eq_refl).
  - apply (proj1 (proj2 (@init_role_performs_steps Demo.core
                    (Demo.lib true (Some Demo.quiet) 1 1) (Demo.net 5 0 6) 1
                    (@ssl_transport_new _ (Demo.net 5 0 6))
                    ltac:(discriminate)))
                 eq_refl
                 (Demo.mkCtx TLSv1_server_method None None)
                 (Demo.mkCtx TLSv1_server_method
                    (Some [x43; x45; x52; x54]) (Some [x43; x45; x52; x54]))
                 Demo.quiet eq_refl eq_refl eq_refl).
Defined.

(** C8 as it was worded fails: not every [init] of a client performs the
    connect and the connect-side handshake. With no context to be had the
    client does nothing with the stream, and with a connect that fails it
    makes the connect and no handshake; [init] returns -1 both times. *)
Lemma init_role_counterexample :
  let no_ctx := @init Demo.core (Demo.lib false (Some Demo.quiet) 1 1)
                      (Demo.net 5 0 6) 0
                      (@ssl_transport_new _ (Demo.net 5 0 6)) [] in
  let no_route := @init Demo.core (Demo.lib true (Some Demo.quiet) 1 1)
                        (Demo.net (-1) 0 6) 0
                        (@ssl_transport_new _ (Demo.net (-1) 0 6)) [] in
  (returned no_ctx = Some (-1) /\
   filter is_stream_step (trace_of no_ctx) = []) /\
  (returned no_route = Some (-1) /\
   filter is_stream_step (trace_of no_route)
   = [EvConnect "127.0.0.1" 443 (-1)] /\
   existsb is_handshake (trace_of no_route) = false).
Proof.
  vm_compute. repeat split.
Defined.

(** Cutting a trace after its first [n] events. *)
Ltac cut_front n :=
  match goal with
  | |- exists pre dump, ?tr = _ =>
      exists (firstn n tr), (skipn (n + 3) tr); reflexivity
  end.

Section InitHandshake.

Context {core : CoreDecls} {lib : OpenSSL} {net : Network}.

(** C6. A handshake that has failed with the result 0 does not make
    [init] return an error. With the context, the identity and the session
    set up and the stream steps before it done, a connect-side handshake
    that gives 0 lets the client's [init] return 0, and an accept-side
    handshake that gives 0 lets the server's [init] return 0; the
    transport then holds the session of that handshake as if it were
    established. *)
Theorem init_refused_handshake_returns_success (type : Z) (t : ssl_transport) :
  TPT_CLIENT <> TPT_SERVER ->
  let o := init type t [] in
  (type = TPT_CLIENT ->
   forall (ctx ctx' : SSL_CTX) (s : SSL),
     SSL_CTX_new TLSv1_client_method = Some ctx ->
     identity_loads ctx = Some ctx' ->
     SSL_new ctx' = Some s ->
     let c := net_connect (m_opt_host t) (m_opt_port t) in
     0 <= c ->
     SSL_connect (SSL_set_fd s c) = 0 ->
     returned o = Some 0 /\
     m_ssl (state_of o) = Some (SSL_set_fd s c) /\
     In (EvSslConnect 0) (trace_of o)) /\
  (type = TPT_SERVER ->
   forall (ctx ctx' : SSL_CTX) (s : SSL),
     SSL_CTX_new TLSv1_server_method = Some ctx ->
     identity_loads ctx = Some ctx' ->
     SSL_new ctx' = Some s ->
     0 <= net_bind (m_opt_port t) ->
     0 <= net_accept ->
     SSL_accept (SSL_set_fd s net_accept) = 0 ->
     returned o = Some 0 /\
     m_ssl (state_of o) = Some (SSL_set_fd s net_accept) /\
     In (EvSslAccept 0) (trace_of o)).
Proof.
  intros Hne. cbv zeta. split.
  - intros -> ctx ctx' s Hctx Hid Hs Hc Hhs.
    destruct (identity_loads_tests ctx ctx' Hid) as (T1 & T2 & T3 & E).
    cbv zeta in T1, T2, T3, E.
    apply Z.ltb_ge in Hc.
    paths_unfold. rewrite Z.eqb_refl. cbn. rewrite Hctx. cbn.
    destruct (SSL_CTX_use_certificate ctx _) as [r1 c1]. cbn in *.
    rewrite T1. cbn.
    destruct (SSL_CTX_use_RSAPrivateKey c1 _) as [r2 c2]. cbn in *.
    rewrite T2. cbn. rewrite T3. cbn. subst c2. rewrite Hs. cbn.
    rewrite Hc. cbn. rewrite Hhs. cbn.
    destruct (SSL_get_peer_certificate _); cbn;
      repeat split; rewrite ?in_app_iff; cbn; tauto.
  - intros -> ctx ctx' s Hctx Hid Hs Hb Ha Hhs.
    destruct (identity_loads_tests ctx ctx' Hid) as (T1 & T2 & T3 & E).
    cbv zeta in T1, T2, T3, E.
    assert (Hsc : (TPT_SERVER =? TPT_CLIENT) = false)
      by (apply Z.eqb_neq; intros X; apply Hne; symmetry; exact X).
    apply Z.ltb_ge in Hb. apply Z.ltb_ge in Ha.
    paths_unfold. rewrite Hsc, Z.eqb_refl. cbn. rewrite Hctx. cbn.
    destruct (SSL_CTX_use_certificate ctx _) as [r1 c1]. cbn in *.
    rewrite T1. cbn.
    destruct (SSL_CTX_use_RSAPrivateKey c1 _) as [r2 c2]. cbn in *.
    rewrite T2. cbn. rewrite T3. cbn. subst c2. rewrite Hs. cbn.
    rewrite Hb. cbn. rewrite Ha. cbn. rewrite Hhs. cbn.
    destruct (SSL_get_peer_certificate _); cbn;
      repeat split; rewrite ?in_app_iff; cbn; tauto.
Qed.

(** C7. The switch to non-blocking mode also follows a handshake that
    has not completed. With the context, the identity and the session set
    up and the stream steps before it done, a handshake that gives 0 is
    directly followed by the log line of the connection and the switch of
    its socket to non-blocking mode, for the client and for the server. *)
Theorem init_switches_after_refused_handshake (type : Z) (t : ssl_transport) :
  TPT_CLIENT <> TPT_SERVER ->
  let o := init type t [] in
  (type = TPT_CLIENT ->
   forall (ctx ctx' : SSL_CTX) (s : SSL),
     SSL_CTX_new TLSv1_client_method = Some ctx ->
     identity_loads ctx = Some ctx' ->
     SSL_new ctx' = Some s ->
     let c := net_connect (m_opt_host t) (m_opt_port t) in
     0 <= c ->
     SSL_connect (SSL_set_fd s c) = 0 ->
     exists pre dump,
       trace_of o
       = pre ++ EvSslConnect 0
             :: EvLog "info: SSL connected using cipher (%s)"
             :: EvSetBlocking c false :: dump) /\
  (type = TPT_SERVER ->
   forall (ctx ctx' : SSL_CTX) (s : SSL),
     SSL_CTX_new TLSv1_server_method = Some ctx ->
     identity_loads ctx = Some ctx' ->
     SSL_new ctx' = Some s ->
     0 <= net_bind (m_opt_port t) ->
     0 <= net_accept ->
     SSL_accept (SSL_set_fd s net_accept) = 0 ->
     exists pre dump,
       trace_of o
       = pre ++ EvSslAccept 0
             :: EvLog "info: SSL connected using cipher (%s)"
             :: EvSetBlocking net_accept false :: dump).
Proof.
  intros Hne. cbv zeta. split.
  - intros -> ctx ctx' s Hctx Hid Hs Hc Hhs.
    destruct (identity_loads_tests ctx ctx' Hid) as (T1 & T2 & T3 & E).
    cbv zeta in T1, T2, T3, E.
    apply Z.ltb_ge in Hc.
    paths_unfold. rewrite Z.eqb_refl. cbn. rewrite Hctx. cbn.
    destruct (SSL_CTX_use_certificate ctx _) as [r1 c1]. cbn in *.
    rewrite T1. cbn.
    destruct (SSL_CTX_use_RSAPrivateKey c1 _) as [r2 c2]. cbn in *.
    rewrite T2. cbn. rewrite T3. cbn. subst c2. rewrite Hs. cbn.
    rewrite Hc. cbn. rewrite Hhs. cbn.
    destruct (SSL_get_peer_certificate _); cbn; cut_front 6%nat.
  - intros -> ctx ctx' s Hctx Hid Hs Hb Ha Hhs.
    destruct (identity_loads_tests ctx ctx' Hid) as (T1 & T2 & T3 & E).
    cbv zeta in T1, T2, T3, E.
    assert (Hsc : (TPT_SERVER =? TPT_CLIENT) = false)
      by (apply Z.eqb_neq; intros X; apply Hne; symmetry; exact X).
    apply Z.ltb_ge in Hb. apply Z.ltb_ge in Ha.
    paths_unfold. rewrite Hsc, Z.eqb_refl. cbn. rewrite Hctx. cbn.
    destruct (SSL_CTX_use_certificate ctx _) as [r1 c1]. cbn in *.
    rewrite T1. cbn.
    destruct (SSL_CTX_use_RSAPrivateKey c1 _) as [r2 c2]. cbn in *.
    rewrite T2. cbn. rewrite T3. cbn. subst c2. rewrite Hs. cbn.
    rewrite Hb. cbn. rewrite Ha. cbn. rewrite Hhs. cbn.
    destruct (SSL_get_peer_certificate _); cbn; cut_front 9%nat.
Qed.

End InitHandshake.

(** A client whose connect gives socket 5 and whose peer shuts the
    connection down during the handshake. *)
Lemma init_refused_handshake_returns_success_witness :
  let o := @init Demo.core (Demo.lib true (Some Demo.quiet) 0 1)
                 (Demo.net 5 0 6) 0
                 (@ssl_transport_new _ (Demo.net 5 0 6)) [] in
  returned o = Some 0 /\
  m_ssl (state_of o) = Some (SSL_set_fd Demo.quiet 5) /\
  In (EvSslConnect 0) (trace_of o).
Proof.
  apply (proj1 (@init_refused_handshake_returns_success Demo.core
                  (Demo.lib true (Some Demo.quiet) 0 1) (Demo.net 5 0 6) 0
                  (@ssl_transport_new _ (Demo.net 5 0 6))
                  ltac:(discriminate))
               eq_refl
               (Demo.mkCtx TLSv1_client_method None None)
               (Demo.mkCtx TLSv1_client_method
                  (Some [x43; x45; x52; x54]) (Some [x43; x45; x52; x54]))
               Demo.quiet eq_refl eq_refl eq_refl
               ltac:(discriminate) eq_refl).
Defined.

(** A server that accepts socket 6 and whose peer shuts the connection
    down during the handshake. *)
Lemma init_switches_after_refused_handshake_witness :
  exists pre dump,
    trace_of (@init Demo.core (Demo.lib true (Some Demo.quiet) 1 0)
                    (Demo.net 5 0 6) 1
                    (@ssl_transport_new _ (Demo.net 5 0 6)) [])
    = pre ++ EvSslAccept 0
          :: EvLog "info: SSL connected using cipher (%s)"
          :: EvSetBlocking 6 false :: dump.
Proof.
  apply (proj2 (@init_switches_after_refused_handshake Demo.core
                  (Demo.lib true (Some Demo.quiet) 1 0) (Demo.net 5 0 6) 1
                  (@ssl_transport_new _ (Demo.net 5 0 6))
                  ltac:(discriminate))
               eq_refl
               (Demo.mkCtx TLSv1_server_method None None)
               (Demo.mkCtx TLSv1_server_method
                  (Some [x43; x45; x52; x54]) (Some [x43; x45; x52; x54]))
               Demo.quiet eq_refl eq_refl eq_refl
               ltac:(discriminate) ltac:(discriminate) eq_refl).
Defined.
